(** * plspy: the resampling tests of Task PLS and the Mean-Centering driver

    A shallow embedding of [plsrri/bootstrap_permutation.py] (the permutation
    and bootstrap engines and the class that runs both) and of
    [pls/pls_classes.py] (the Mean-Centering Task PLS driver), followed by the
    properties of the specification that were checked against them.

    Conventions of the embedding
    - a Python exception is a value of [exn]; a call that may raise returns
      [res A]; the two engines return an [outcome], which in the raising case
      also carries the locals of the frame at the time of the raise;
    - NumPy's float arithmetic is an interface, [Scalar]: every definition and
      every general theorem is parametric in it, and the algebraic laws a proof
      needs are stated as hypotheses of that theorem.  [Rational.xq] (exact
      rationals extended with inf, -inf and nan) is the instance the examples
      run on;
    - a 1-D array is a list, a 2-D array a list of rows; broadcasting is written
      out;
    - the project modules [gsvd] and [resample] and the library routines
      [np.linalg.svd] and [np.linalg.inv] are the fields of [Collaborators];
      the random generator that NumPy keeps as global state is threaded
      explicitly through the resampler. *)

From Stdlib Require Import ZArith QArith Qcanon Lia.
From stdpp Require Import base option list gmap strings.

Local Open Scope Z_scope.

(** ** Python results *)

Module Py.

Inductive exn : Set :=
| NotImplementedError   (* exceptions.NotImplementedError of the project *)
| ValueError
| TypeError
| AttributeError
| LinAlgError.

Inductive res (A : Type) : Type :=
| Ok (a : A)
| Err (e : exn).
Arguments Ok {A} a.
Arguments Err {A} e.

#[export] Instance exn_eq_dec : EqDecision exn.
Proof. solve_decision. Defined.
#[export] Instance res_eq_dec {A : Type} `{EqDecision A} : EqDecision (res A).
Proof. solve_decision. Defined.

#[export] Instance res_ret : MRet res := fun _ a => Ok a.
#[export] Instance res_bind : MBind res :=
  fun _ _ f m => match m with Ok a => f a | Err e => Err e end.

(** What a call of an engine leaves behind: the value returned, or the
    exception raised; in both cases with the frame's mutable locals [St]. *)
Inductive outcome (St A : Type) : Type :=
| Returned (a : A) (st : St)
| Raised (e : exn) (st : St).
Arguments Returned {St A} a st.
Arguments Raised {St A} e st.

(** [for i in range(n): body]: the body either completes with the next state
    or raises, which ends the loop with the state reached so far. *)
Fixpoint for_each {St I : Type} (body : I → St → exn * St + St) (idx : list I) (st : St)
  : exn * St + St :=
  match idx with
  | [] => inr st
  | i :: idx' =>
      match body i st with
      | inl e => inl e
      | inr st' => for_each body idx' st'
      end
  end.

Definition for_range {St : Type} (n : nat) (body : nat → St → exn * St + St) (st : St)
  : exn * St + St :=
  for_each body (seq 0 n) st.

(** [range(n)] for a Python int. *)
Definition range (n : Z) : list Z := Z.of_nat <$> seq 0 (Z.to_nat n).

End Py.
Export Py.

(** ** Float arithmetic as an interface *)

Class Scalar (F : Type) : Type := {
  fzero : F;
  fone : F;
  fadd : F → F → F;
  fsub : F → F → F;
  fmul : F → F → F;
  fdiv : F → F → F;
  fsqrt : F → F;
  fge : F → F → bool;        (* [>=]; False as soon as one side is nan *)
  fof_Z : Z → F;             (* int to float *)
  is_finite : F → bool       (* np.isfinite *)
}.

(** ** NumPy arrays *)

Module np.

(** A 1-D array is the list of its entries, a 2-D array the list of its rows.
    The number of columns is read off the first row, so an array without rows
    has none; the theorems that depend on a shape state it with [has_shape]. *)
Abbreviation vec F := (list F) (only parsing).
Abbreviation matrix F := (list (list F)) (only parsing).

Section arrays.
Context {F : Type} {SF : Scalar F}.

Definition nrows (M : matrix F) : nat := length M.
Definition ncols (M : matrix F) : nat :=
  match M with [] => 0%nat | r :: _ => length r end.

(** The lists that are arrays of shape (r, c). *)
Definition has_shape (r c : nat) (M : matrix F) : Prop :=
  length M = r ∧ Forall (λ row, length row = c) M.

Definition column (j : nat) (M : matrix F) : vec F := (λ row, nth j row fzero) <$> M.

(** [M.T] *)
Definition transpose (M : matrix F) : matrix F := (λ j, column j M) <$> seq 0 (ncols M).

Definition sum (v : vec F) : F := foldl fadd fzero v.

Definition dot (u v : vec F) : F := sum (zip_with fmul u v).

(** [A @ B] and [np.dot(A, B)] on 2-D arrays: ValueError unless the inner
    dimensions agree. *)
Definition matmul (A B : matrix F) : res (matrix F) :=
  if decide (ncols A = nrows B)
  then Ok ((λ row, (λ col, dot row col) <$> transpose B) <$> A)
  else Err ValueError.

(** [np.power(M, 2)] *)
Definition power2 (M : matrix F) : matrix F :=
  (λ row : vec F, (λ x, fmul x x) <$> row) <$> M.

(** [np.sum(M, axis=0)] *)
Definition sum_axis0 (M : matrix F) : vec F :=
  (λ j, sum (column j M)) <$> seq 0 (ncols M).

(** [np.sqrt] *)
Definition sqrt (v : vec F) : vec F := fsqrt <$> v.

(** [np.sqrt(np.sum(np.power(M, 2), axis=0))]: the norms of the columns. *)
Definition column_norms (M : matrix F) : vec F := sqrt (sum_axis0 (power2 M)).

(** [np.mean(M, axis=0)] *)
Definition mean_axis0 (M : matrix F) : vec F :=
  (λ j, fdiv (sum (column j M)) (fof_Z (Z.of_nat (nrows M)))) <$> seq 0 (ncols M).

(** [np.ones((r, c))], [np.zeros(n)] as counts, [v.reshape((1, n))] *)
Definition ones (r c : nat) : matrix F := replicate r (replicate c fone).
Definition zeros (n : nat) : list Z := replicate n 0.
Definition reshape_row (v : vec F) : matrix F := [v].

(** [np.linalg.norm(M)]: the Frobenius norm of a 2-D array. *)
Definition linalg_norm (M : matrix F) : F := fsqrt (sum (concat (power2 M))).

(** [M / x] for a scalar [x] *)
Definition div_scalar (M : matrix F) (x : F) : matrix F :=
  (λ row : vec F, (λ a, fdiv a x) <$> row) <$> M.

(** [np.diag(v)] *)
Definition diag (v : vec F) : matrix F :=
  imap (λ i x, <[i := x]> (replicate (length v) fzero)) v.

(** *** Broadcasting *)

(** The common length of two axes, when there is one. *)
Definition bdim (a b : nat) : option nat :=
  if decide (a = b) then Some a
  else if decide (a = 1%nat) then Some b
  else if decide (b = 1%nat) then Some a
  else None.

(** An axis of length 1 is repeated [n] times. *)
Definition stretch {A : Type} (n : nat) (l : list A) : list A :=
  if decide (length l = n) then l
  else match l with [x] => replicate n x | _ => l end.

Definition broadcast2 (op : F → F → F) (A B : matrix F) : res (matrix F) :=
  match bdim (nrows A) (nrows B), bdim (ncols A) (ncols B) with
  | Some r, Some c =>
      Ok (zip_with (λ ra rb, zip_with op (stretch c ra) (stretch c rb))
                   (stretch r A) (stretch r B))
  | _, _ => Err ValueError
  end.

(** [A - B], [np.divide(A, B)] and [A / B] on 2-D arrays; [M / v] with a
    1-D [v], which NumPy reads as one row. *)
Definition subtract : matrix F → matrix F → res (matrix F) := broadcast2 fsub.
Definition divide : matrix F → matrix F → res (matrix F) := broadcast2 fdiv.
Definition divide_by_row (M : matrix F) (v : vec F) : res (matrix F) := divide M [v].

(** [dst[i] = M] where [dst[i]] has shape (r, c): [M] is broadcast to it. *)
Definition broadcast_to (r c : nat) (M : matrix F) : res (matrix F) :=
  if decide ((nrows M = r ∨ nrows M = 1%nat) ∧ (ncols M = c ∨ ncols M = 1%nat))
  then Ok (stretch c <$> stretch r M)
  else Err ValueError.

(** [a >= b] on 1-D arrays. *)
Definition greater_equal (a b : vec F) : res (list bool) :=
  match bdim (length a) (length b) with
  | Some n => Ok (zip_with fge (stretch n a) (stretch n b))
  | None => Err ValueError
  end.

(** [acc += flags]: the flags are broadcast to the shape of [acc], which
    cannot change; True counts 1 and False 0. *)
Definition iadd_flags (acc : list Z) (flags : list bool) : res (list Z) :=
  if decide (length flags = length acc ∨ length flags = 1%nat)
  then Ok (zip_with (λ c (t : bool), c + Z.b2z t) acc (stretch (length acc) flags))
  else Err ValueError.

(** [counts / niter]: the counts are whole numbers, so the quotient is the
    exact rational; [None] is the non-finite result (nan or inf) of a
    division by 0. *)
Definition true_divide_count (niter : nat) (c : Z) : option Q :=
  if decide (niter = 0%nat) then None else Some (c # Pos.of_nat niter).

End arrays.
End np.

(** ** scipy.stats.sem *)

Module scipy_stats.
Section sem.
Context {F : Type} {SF : Scalar F}.

(** The standard error of the mean of one sample, with the default
    [ddof=1]: [std(xs, ddof=1) / sqrt(n)]. *)
Definition sem1 (xs : np.vec F) : F :=
  let n := Z.of_nat (length xs) in
  let mean := fdiv (np.sum xs) (fof_Z n) in
  let sq := (λ x, let d := fsub x mean in fmul d d) <$> xs in
  let var := fdiv (np.sum sq) (fof_Z (n - 1)) in
  fdiv (fsqrt var) (fsqrt (fof_Z n)).

(** [sem(a, axis=0)] for [a] of shape (n, r, c): entry by entry, across the
    first axis. *)
Definition sem (r c : nat) (a : list (np.matrix F)) : np.matrix F :=
  (λ i, (λ j, sem1 ((λ M : np.matrix F, nth j (nth i M []) fzero) <$> a)) <$> seq 0 c)
    <$> seq 0 r.
End sem.
End scipy_stats.

(** ** The collaborators that are not part of the two source files *)

(** The type of a [cond_order]: one list of condition labels per group. *)
Abbreviation CondOrder := (list (list Z)) (only parsing).

(** Each collaborator is a function of its arguments (and of the generator,
    for the resamplers): the model covers the calls in which it returns.  A
    collaborator that raises, as a quantile routine may on an empty sample,
    ends the engine with its exception; [linalg_inv] alone is given its
    error here, and no statement below is about a call in which another one
    raises. *)
Class Collaborators (F : Type) : Type := {
  (** the state of NumPy's global random generator *)
  rng : Type;
  (** [resample.resample_without_replacement(M, cond_order)] *)
  resample_without_replacement : rng → np.matrix F → CondOrder → np.matrix F * rng;
  (** [resample.resample_with_replacement(M, cond_order)] *)
  resample_with_replacement : rng → np.matrix F → CondOrder → np.matrix F * rng;
  (** [resample.confidence_interval(a)], called with the sampled array alone;
      the pair is (lower, upper) *)
  confidence_interval : list (np.matrix F) → np.matrix F * np.matrix F;
  (** [np.linalg.svd(M, full_matrices=False)]: (U, s, Vh); with
      [compute_uv=False] the middle component alone *)
  linalg_svd : np.matrix F → np.matrix F * np.vec F * np.matrix F;
  (** [np.linalg.inv(M)] *)
  linalg_inv : np.matrix F → res (np.matrix F);
  (** [gsvd.gsvd(M)]: (U, s, V) *)
  gsvd : np.matrix F → np.matrix F * np.vec F * np.matrix F
}.

(** The [preprocess] argument of the engines, a function of the caller: it is
    called as [preprocess(X_new, cond_order, return_means=False)] when there is
    no [Y] (second argument [None] here) and as
    [preprocess(X_new, Y_new, cond_order)] when there is one, and it may raise. *)
Abbreviation preprocess_fn F :=
  (np.matrix F → option (np.matrix F) → CondOrder → res (np.matrix F)) (only parsing).

(** ** plsrri/bootstrap_permutation.py *)

Module bootstrap_permutation.
Module _ResampleTestTaskPLS.
Section engines.
Context {F : Type} {SF : Scalar F} {CF : Collaborators F}.

(** The first statements of a round, in both engines: [X] is resampled, then
    [Y] when there is one, each by a call of its own to the resampler. *)
Definition resampled_pair
    (resample : rng → np.matrix F → CondOrder → np.matrix F * rng)
    (g : rng) (X : np.matrix F) (Y : option (np.matrix F)) (co : CondOrder)
  : np.matrix F * option (np.matrix F) * rng :=
  let '(X_new, g1) := resample g X co in
  match Y with
  | None => (X_new, None, g1)
  | Some Y => let '(Y_new, g2) := resample g1 Y co in (X_new, Some Y_new, g2)
  end.

(** [preprocess(...)]; the default [preprocess=None] is not callable. *)
Definition call_preprocess (preprocess : option (preprocess_fn F))
    (X_new : np.matrix F) (Y_new : option (np.matrix F)) (co : CondOrder)
  : res (np.matrix F) :=
  match preprocess with
  | None => Err TypeError
  | Some f => f X_new Y_new co
  end.

(** *** The permutation test *)

(** [rotate_method == 1]: the matrix [rot] that is applied to [V_hat]. *)
Definition permutation_rot (V V_hat : np.matrix F) : res (np.matrix F) :=
  M ← np.matmul (np.transpose V) V_hat;
  let '(U_bar, s_bar, V_bar) := linalg_svd M in
  np.matmul U_bar (np.transpose V).

(** [rotate_method == 1]: the singular values of the round. *)
Definition permutation_s_rot (permuted V : np.matrix F) : res (np.vec F) :=
  let '(U_hat, s_hat, V_hat) := linalg_svd permuted in
  rot ← permutation_rot V V_hat;
  V_rot ← np.matmul V_hat rot;
  permuted_rot ← np.matmul permuted V_rot;
  mret (np.sqrt (np.sum_axis0 (np.power2 (np.transpose permuted_rot)))).

(** [rotate_method == 2]: the singular values of the round. *)
Definition permutation_s_derived (permuted V : np.matrix F) : res (np.vec F) :=
  US_hat ← np.matmul permuted V;
  mret (np.sqrt (np.sum_axis0 (np.power2 US_hat))).

(** The [if rotate_method == 0 ... elif ... else raise] of the loop body. *)
Definition permutation_s_hat (rotate_method : Z) (permuted V : np.matrix F)
  : res (np.vec F) :=
  if decide (rotate_method = 0) then
    let '(_, s_hat, _) := linalg_svd permuted in mret s_hat
  else if decide (rotate_method = 1) then permutation_s_rot permuted V
  else if decide (rotate_method = 2) then permutation_s_derived permuted V
  else Err NotImplementedError.

(** The locals that the loop changes. *)
Record permutation_state : Type := {
  perm_rng : rng;
  greatersum : list Z
}.

(** One round up to the singular values [s_hat]: nothing here touches
    [greatersum]. *)
Definition permutation_round_s_hat
    (X : np.matrix F) (Y : option (np.matrix F)) (V : np.matrix F)
    (co : CondOrder) (preprocess : option (preprocess_fn F)) (rotate_method : Z)
    (g : rng) : res (np.vec F) * rng :=
  let '(X_new, Y_new, g') := resampled_pair resample_without_replacement g X Y co in
  (permuted ← call_preprocess preprocess X_new Y_new co;
   permutation_s_hat rotate_method permuted V, g').

(** The body of the loop; its last statement is [greatersum += s_hat >= s]. *)
Definition permutation_round
    (X : np.matrix F) (Y : option (np.matrix F)) (s : np.vec F) (V : np.matrix F)
    (co : CondOrder) (preprocess : option (preprocess_fn F)) (rotate_method : Z)
    (i : nat) (st : permutation_state) : exn * permutation_state + permutation_state :=
  let '(r, g') := permutation_round_s_hat X Y V co preprocess rotate_method (perm_rng st) in
  match (s_hat ← r;
         flags ← np.greater_equal s_hat s;
         np.iadd_flags (greatersum st) flags) with
  | Err e => inl (e, {| perm_rng := g'; greatersum := greatersum st |})
  | Ok acc => inr {| perm_rng := g'; greatersum := acc |}
  end.

(** [_permutation_test(X, Y, U, s, V, cond_order, ngroups, niter,
    preprocess, rotate_method)], started with the generator in state [g].
    [U] and [ngroups] are not used by the body, and neither is [threshold],
    which is left out. *)
Definition _permutation_test
    (X : np.matrix F) (Y : option (np.matrix F)) (U : np.matrix F) (s : np.vec F)
    (V : np.matrix F) (co : CondOrder) (ngroups : Z) (niter : nat)
    (preprocess : option (preprocess_fn F)) (rotate_method : Z) (g : rng)
  : outcome permutation_state (list (option Q)) :=
  let st0 := {| perm_rng := g; greatersum := np.zeros (length s) |} in
  match for_range niter (permutation_round X Y s V co preprocess rotate_method) st0 with
  | inl (e, st) => Raised e st
  | inr st => Returned (np.true_divide_count niter <$> greatersum st) st
  end.

(** *** The bootstrap test *)

(** [rotate_method == 2]: [US_hat] and the singular values [s_hat] of the
    round. *)
Definition bootstrap_derived (permuted V : np.matrix F)
  : res (np.matrix F * np.vec F) :=
  US_hat ← np.matmul (np.transpose V) (np.transpose permuted);
  mret (US_hat, np.sqrt (np.sum_axis0 (np.power2 US_hat))).

Definition bootstrap_s_derived (permuted V : np.matrix F) : res (np.vec F) :=
  '(US_hat, s_hat) ← bootstrap_derived permuted V;
  mret s_hat.

(** The [if rotate_method == 0 ... elif ... else raise] of the loop body:
    the pair [(U_hat, V_hat)] the round stores. *)
Definition bootstrap_vectors (rotate_method : Z) (permuted U V : np.matrix F)
  : res (np.matrix F * np.matrix F) :=
  if decide (rotate_method = 0) then
    let '(U_hat, s_hat, V_hat) := linalg_svd permuted in
    mret (U_hat, np.transpose V_hat)
  else if decide (rotate_method = 1) then
    let '(U_hat, s_hat, V_hat) := linalg_svd permuted in
    M ← np.matmul (np.transpose V) V_hat;
    let '(U_bar, s_bar, V_bar) := linalg_svd M in
    let s_pro := np.sqrt (np.sum_axis0 (np.power2 V_bar)) in
    mret (U_hat, V_hat)
  else if decide (rotate_method = 2) then
    '(US_hat, s_hat) ← bootstrap_derived permuted V;
    U_hat_der ← np.divide_by_row US_hat s_hat;
    D ← linalg_inv (np.diag s_hat);
    UtX ← np.matmul (np.transpose U) permuted;
    DV ← np.matmul D UtX;
    mret (U_hat_der, np.transpose DV)
  else Err NotImplementedError.

(** The locals that the loop changes: the two arrays made by [np.empty],
    one slot per round, [None] while the slot has not been written. *)
Record bootstrap_state : Type := {
  boot_rng : rng;
  left_sv_sampled : list (option (np.matrix F));
  right_sv_sampled : list (option (np.matrix F))
}.

(** One round up to the pair [(U_hat, V_hat)]: nothing here touches the two
    sampled arrays. *)
Definition bootstrap_round_vectors
    (X : np.matrix F) (Y : option (np.matrix F)) (U V : np.matrix F)
    (co : CondOrder) (preprocess : option (preprocess_fn F)) (rotate_method : Z)
    (g : rng) : res (np.matrix F * np.matrix F) * rng :=
  let '(X_new, Y_new, g') := resampled_pair resample_with_replacement g X Y co in
  (permuted ← call_preprocess preprocess X_new Y_new co;
   bootstrap_vectors rotate_method permuted U V, g').

(** The body of the loop; its last statements are
    [left_sv_sampled[i] = U_hat] and [right_sv_sampled[i] = V_hat]. *)
Definition bootstrap_round
    (X : np.matrix F) (Y : option (np.matrix F)) (U V : np.matrix F)
    (co : CondOrder) (preprocess : option (preprocess_fn F)) (rotate_method : Z)
    (i : nat) (st : bootstrap_state) : exn * bootstrap_state + bootstrap_state :=
  let '(r, g') := bootstrap_round_vectors X Y U V co preprocess rotate_method (boot_rng st) in
  let st1 := {| boot_rng := g'; left_sv_sampled := left_sv_sampled st;
                right_sv_sampled := right_sv_sampled st |} in
  match r with
  | Err e => inl (e, st1)
  | Ok (U_hat, V_hat) =>
      match np.broadcast_to (np.nrows U) (np.ncols U) U_hat with
      | Err e => inl (e, st1)
      | Ok U_slot =>
          let st2 := {| boot_rng := g';
                        left_sv_sampled := <[i := Some U_slot]> (left_sv_sampled st);
                        right_sv_sampled := right_sv_sampled st |} in
          match np.broadcast_to (np.nrows V) (np.ncols V) V_hat with
          | Err e => inl (e, st2)
          | Ok V_slot =>
              inr {| boot_rng := g';
                     left_sv_sampled := left_sv_sampled st2;
                     right_sv_sampled := <[i := Some V_slot]> (right_sv_sampled st) |}
          end
      end
  end.

(** The slots that have been written, in order. *)
Definition written (slots : list (option (np.matrix F))) : list (np.matrix F) :=
  omap id slots.

(** [_bootstrap_test(X, Y, U, s, V, cond_order, ngroups, niter, preprocess,
    rotate_method, dist)], started with the generator in state [g]; it
    returns [(conf_int, std_errs, boot_ratios)]. *)
Definition _bootstrap_test
    (X : np.matrix F) (Y : option (np.matrix F)) (U : np.matrix F) (s : np.vec F)
    (V : np.matrix F) (co : CondOrder) (ngroups : Z) (niter : nat)
    (preprocess : option (preprocess_fn F)) (rotate_method : Z) (dist : F * F) (g : rng)
  : outcome bootstrap_state
      ((np.matrix F * np.matrix F) * np.matrix F * np.matrix F) :=
  let st0 := {| boot_rng := g;
                left_sv_sampled := replicate niter None;
                right_sv_sampled := replicate niter None |} in
  match for_range niter (bootstrap_round X Y U V co preprocess rotate_method) st0 with
  | inl (e, st) => Raised e st
  | inr st =>
      let conf_int := confidence_interval (written (left_sv_sampled st)) in
      let std_errs := scipy_stats.sem (np.nrows V) (np.ncols V) (written (right_sv_sampled st)) in
      match np.divide std_errs V with
      | Err e => Raised e st
      | Ok boot_ratios => Returned (conf_int, std_errs, boot_ratios) st
      end
  end.

(** *** The class *)

(** The attributes [__init__] sets. *)
Record instance : Type := {
  dist : F * F;
  permute_ratio : list (option Q);
  conf_ints : np.matrix F * np.matrix F;
  std_errs : np.matrix F;
  boot_ratios : np.matrix F
}.

(** [__init__(self, X, Y, U, s, V, cond_order, preprocess, nperm, nboot,
    ngroups, dist, rotate_method)]: the permutation test, then the bootstrap
    test, on the generator the permutation test leaves. *)
Definition __init__
    (X : np.matrix F) (Y : option (np.matrix F)) (U : np.matrix F) (s : np.vec F)
    (V : np.matrix F) (co : CondOrder) (preprocess : option (preprocess_fn F))
    (nperm nboot : nat) (ngroups : Z) (dist : F * F) (rotate_method : Z) (g : rng)
  : res (instance * rng) :=
  match _permutation_test X Y U s V co ngroups nperm preprocess rotate_method g with
  | Raised e _ => Err e
  | Returned ratio st =>
      match _bootstrap_test X Y U s V co ngroups nboot preprocess rotate_method dist
              (perm_rng st) with
      | Raised e _ => Err e
      | Returned (ci, se, br) st' =>
          Ok ({| dist := dist; permute_ratio := ratio; conf_ints := ci;
                 std_errs := se; boot_ratios := br |}, boot_rng st')
      end
  end.

End engines.
#[global] Arguments permutation_state F {_}.
#[global] Arguments bootstrap_state F {_}.
#[global] Arguments instance F : clear implicits.
End _ResampleTestTaskPLS.

(** *** The module as its importers see it *)

Section importers.
Context {F : Type} {SF : Scalar F} {CF : Collaborators F}.

(** The values that are passed to the class. *)
Inductive pyval : Type :=
| PyNone
| PyInt (z : Z)
| PyMatrix (M : np.matrix F)
| PyVector (v : np.vec F)
| PyCondOrder (co : CondOrder)
| PyPair (p : F * F)
| PyFunction (f : preprocess_fn F).

(** The parameters of a [def], after [self]: name and default value. *)
Definition signature : Type := list (string * option pyval).

Fixpoint bind_keywords (names : list string) (kwargs : list (string * pyval))
    (env : gmap string pyval) : res (gmap string pyval) :=
  match kwargs with
  | [] => Ok env
  | (k, v) :: kwargs' =>
      if decide (k ∈ names) then
        match env !! k with
        | Some _ => Err TypeError         (* multiple values for argument *)
        | None => bind_keywords names kwargs' (<[k := v]> env)
        end
      else Err TypeError                  (* unexpected keyword argument *)
  end.

Fixpoint bind_defaults (sig : signature) (env : gmap string pyval)
  : res (gmap string pyval) :=
  match sig with
  | [] => Ok env
  | (name, dflt) :: sig' =>
      match env !! name, dflt with
      | Some _, _ => bind_defaults sig' env
      | None, Some d => bind_defaults sig' (<[name := d]> env)
      | None, None => Err TypeError       (* missing required argument *)
      end
  end.

(** How Python binds the arguments of a call to the parameters. *)
Definition bind_arguments (sig : signature) (args : list pyval)
    (kwargs : list (string * pyval)) : res (gmap string pyval) :=
  if decide (length args ≤ length sig)%nat then
    env ← bind_keywords sig.*1 kwargs (list_to_map (zip sig.*1 args));
    bind_defaults sig env
  else Err TypeError.                     (* too many positional arguments *)

(** [def __init__(self, X, Y, U, s, V, cond_order, preprocess=None,
    nperm=1000, nboot=1000, ngroups=1, dist=(0.05, 0.95), rotate_method=0)] *)
Definition __init___signature : signature :=
  [ ("X", None); ("Y", None); ("U", None); ("s", None); ("V", None);
    ("cond_order", None); ("preprocess", Some PyNone);
    ("nperm", Some (PyInt 1000)); ("nboot", Some (PyInt 1000));
    ("ngroups", Some (PyInt 1));
    ("dist", Some (PyPair (fdiv (fof_Z 5) (fof_Z 100), fdiv (fof_Z 95) (fof_Z 100))));
    ("rotate_method", Some (PyInt 0)) ].

(** The bound arguments at the types [__init__] uses them at; a value of
    another kind fails where it is first used, here with TypeError. *)
Definition as_matrix (v : option pyval) : res (np.matrix F) :=
  match v with Some (PyMatrix M) => Ok M | _ => Err TypeError end.
Definition as_optional_matrix (v : option pyval) : res (option (np.matrix F)) :=
  match v with
  | Some PyNone => Ok None
  | Some (PyMatrix M) => Ok (Some M)
  | _ => Err TypeError
  end.
Definition as_vector (v : option pyval) : res (np.vec F) :=
  match v with Some (PyVector s) => Ok s | _ => Err TypeError end.
Definition as_cond_order (v : option pyval) : res CondOrder :=
  match v with Some (PyCondOrder co) => Ok co | _ => Err TypeError end.
Definition as_preprocess (v : option pyval) : res (option (preprocess_fn F)) :=
  match v with
  | Some PyNone => Ok None
  | Some (PyFunction f) => Ok (Some f)
  | _ => Err TypeError
  end.
Definition as_int (v : option pyval) : res Z :=
  match v with Some (PyInt z) => Ok z | _ => Err TypeError end.
Definition as_pair (v : option pyval) : res (F * F) :=
  match v with Some (PyPair p) => Ok p | _ => Err TypeError end.

(** A call of the class [_ResampleTestTaskPLS] with positional and keyword
    arguments.  It is the call for arguments of the kinds the parameters are
    used at and for iteration counts that are not negative: Python checks no
    kind at the binding and fails where a value is first used, and a negative
    count runs no round but is still the divisor of the ratio and the first
    dimension of the sampled arrays; neither case is stated anything about
    below. *)
Definition new__ResampleTestTaskPLS (args : list pyval) (kwargs : list (string * pyval))
    (g : rng) : res (_ResampleTestTaskPLS.instance F * rng) :=
  env ← bind_arguments __init___signature args kwargs;
  X ← as_matrix (env !! "X");
  Y ← as_optional_matrix (env !! "Y");
  U ← as_matrix (env !! "U");
  s ← as_vector (env !! "s");
  V ← as_matrix (env !! "V");
  co ← as_cond_order (env !! "cond_order");
  preprocess ← as_preprocess (env !! "preprocess");
  nperm ← as_int (env !! "nperm");
  nboot ← as_int (env !! "nboot");
  ngroups ← as_int (env !! "ngroups");
  dist ← as_pair (env !! "dist");
  rotate_method ← as_int (env !! "rotate_method");
  _ResampleTestTaskPLS.__init__ X Y U s V co preprocess (Z.to_nat nperm) (Z.to_nat nboot)
    ngroups dist rotate_method g.

(** The names the module defines at its top level: the six imports and the
    two classes. *)
Inductive member : Set :=
| imported_module (name : string)
| class_ResampleTest               (* abstract: __str__ and __repr__ *)
| class__ResampleTestTaskPLS.

Definition namespace : gmap string member :=
  list_to_map
    [ ("abc", imported_module "abc"); ("np", imported_module "numpy");
      ("scipy", imported_module "scipy"); ("gsvd", imported_module "gsvd");
      ("resample", imported_module "resample");
      ("exceptions", imported_module "exceptions");
      ("ResampleTest", class_ResampleTest);
      ("_ResampleTestTaskPLS", class__ResampleTestTaskPLS) ].

(** [bootstrap_permutation.<name>] *)
Definition getattr (name : string) : res member :=
  match namespace !! name with
  | Some m => Ok m
  | None => Err AttributeError
  end.

(** A call of a member with positional and keyword arguments: a module is
    not callable and an abstract class cannot be instantiated. *)
Definition call (m : member) (args : list pyval) (kwargs : list (string * pyval))
    (g : rng) : res (_ResampleTestTaskPLS.instance F * rng) :=
  match m with
  | imported_module _ => Err TypeError
  | class_ResampleTest => Err TypeError
  | class__ResampleTestTaskPLS => new__ResampleTestTaskPLS args kwargs g
  end.

End importers.
#[global] Arguments pyval F : clear implicits.
End bootstrap_permutation.

(** ** pls/pls_classes.py *)

Module pls_classes.
Module _MeanCenterTaskSingleGroupPLS.

(** Python lists are objects: a list of lists holds references into a store
    of lists, and a list that was appended twice is one object seen twice. *)
Record list_of_lists : Type := {
  store : list (list Z);
  refs : list nat
}.

Definition view (l : list_of_lists) : list (list Z) :=
  (λ a, default [] (store l !! a)) <$> refs l.

(** The body of [for k in range(num_conditions)], for the group of size [n]
    whose [group_list] is the object at address [a]:
    [group_list.extend([k] * n)] and then [cond_order.append(group_list)]. *)
Definition _get_cond_order_inner (n : Z) (a : nat) (st : list_of_lists) (k : Z)
  : list_of_lists :=
  {| store := alter (λ group_list, group_list ++ replicate (Z.to_nat n) k) a (store st);
     refs := refs st ++ [a] |}.

(** The body of [for i in range(len(groups_tuple))]: [group_list = []] makes
    a new object, then the inner loop runs. *)
Definition _get_cond_order_outer (num_conditions : Z) (st : list_of_lists) (n : Z)
  : list_of_lists :=
  let a := length (store st) in
  foldl (_get_cond_order_inner n a)
        {| store := store st ++ [[]]; refs := refs st |}
        (range num_conditions).

Definition _get_cond_order_objects (groups_tuple : list Z) (num_conditions : Z)
  : list_of_lists :=
  foldl (_get_cond_order_outer num_conditions) {| store := []; refs := [] |} groups_tuple.

(** [_get_cond_order(groups_tuple, num_conditions)], as the caller reads it. *)
Definition _get_cond_order (groups_tuple : list Z) (num_conditions : Z) : CondOrder :=
  view (_get_cond_order_objects groups_tuple num_conditions).

(** [_get_groups_info(groups_tuple)] *)
Definition _get_groups_info (groups_tuple : option (list Z)) : list Z * Z :=
  match groups_tuple with
  | None => ([], 0)
  | Some t => (t, Z.of_nat (length t))
  end.

Section driver.
Context {F : Type} {SF : Scalar F} {CF : Collaborators F}.

(** [_compute_latents(I, EV, ngroups=1)] *)
Definition _compute_latents (I EV : np.matrix F) (ngroups : Z) : res (np.matrix F) :=
  if decide (ngroups = 1) then np.matmul I EV else Err NotImplementedError.

(** [_mean_center(X, ngroups=1)] *)
Definition _mean_center (X : np.matrix F) (ngroups : Z)
  : res (np.matrix F * np.matrix F) :=
  if decide (ngroups = 1) then
    prod ← np.matmul (np.ones (np.nrows X) 1) (np.reshape_row (np.mean_axis0 X));
    X_means ← np.subtract X prod;
    let X_mc := np.div_scalar X_means (np.linalg_norm X_means) in
    mret (X_means, X_mc)
  else Err NotImplementedError.

(** [_run_pls(mc, ngroups=1)] *)
Definition _run_pls (mc : np.matrix F) (ngroups : Z)
  : res (np.matrix F * np.vec F * np.matrix F) :=
  if decide (ngroups = 1) then mret (gsvd mc) else Err NotImplementedError.

(** [self._mean_center] where a [preprocess] is expected: the engines call
    it with [(X_new, cond_order, return_means=False)] or with three
    positional arguments, and [_mean_center(X, ngroups=1)] accepts
    neither. *)
Definition _mean_center_as_preprocess : preprocess_fn F :=
  λ X_new Y_new co, Err TypeError.

(** The attributes [__init__] sets. *)
Record instance : Type := {
  X : np.matrix F;
  groups_sizes : list Z;
  num_groups : Z;
  num_conditions : Z;
  cond_order : CondOrder;
  num_perm : Z;
  num_boot : Z;
  X_means : np.matrix F;
  X_mc : np.matrix F;
  U : np.matrix F;
  s : np.vec F;
  V : np.matrix F;
  X_latent : np.matrix F;
  resample_tests : bootstrap_permutation._ResampleTestTaskPLS.instance F
}.

(** The call at the end of [__init__]: its positional and its keyword
    arguments, in the order they are written. *)
Definition resample_tests_args (X : np.matrix F) (s : np.vec F) (co : CondOrder)
  : list (bootstrap_permutation.pyval F) :=
  [ bootstrap_permutation.PyMatrix X;
    bootstrap_permutation.PyVector s;
    bootstrap_permutation.PyCondOrder co ].

Definition resample_tests_kwargs (num_perm num_boot num_groups : Z)
  : list (string * bootstrap_permutation.pyval F) :=
  [ ("preprocess", bootstrap_permutation.PyFunction _mean_center_as_preprocess);
    ("nperm", bootstrap_permutation.PyInt num_perm);
    ("nboot", bootstrap_permutation.PyInt num_boot);
    ("ngroups", bootstrap_permutation.PyInt num_groups);
    ("nonrotated", bootstrap_permutation.PyNone) ].

(** [__init__(self, X, Y, groups_sizes, num_conditions, cond_order=None,
    num_perm=1000, num_boot=1000)], without extra keyword arguments. *)
Definition __init__
    (X : np.matrix F) (Y : option (np.matrix F)) (groups_sizes : option (list Z))
    (num_conditions : Z) (cond_order : option CondOrder) (num_perm num_boot : Z)
    (g : rng) : res (instance * rng) :=
  match Y with
  | Some _ => Err ValueError
  | None =>
      let '(groups_sizes, num_groups) := _get_groups_info groups_sizes in
      let co :=
        match cond_order with
        | None => _get_cond_order groups_sizes num_conditions
        | Some co => co
        end in
      '(X_means, X_mc) ← _mean_center X num_groups;
      '(U, s, V) ← _run_pls X_mc num_groups;
      X_latent ← _compute_latents X_mc V 1;
      cls ← bootstrap_permutation.getattr "ResampleTestTaskPLS";
      '(tests, g') ← bootstrap_permutation.call cls
                       (resample_tests_args X s co)
                       (resample_tests_kwargs num_perm num_boot num_groups) g;
      mret ({| X := X; groups_sizes := groups_sizes; num_groups := num_groups;
               num_conditions := num_conditions; cond_order := co;
               num_perm := num_perm; num_boot := num_boot;
               X_means := X_means; X_mc := X_mc; U := U; s := s; V := V;
               X_latent := X_latent; resample_tests := tests |}, g')
  end.

End driver.
End _MeanCenterTaskSingleGroupPLS.
End pls_classes.

(** ** What the specification compares the code with *)

Module claimed.

(** The docstring of [_get_cond_order]: "each sub-list contains the condition
    ordering for each group"; "length of each sub-list is [groups_tuple[i] *
    num_conditions] and length of returned list is [len(groups_tuple)]".  The
    labels of a group of size [n] are [n] times each condition, in the order
    of the conditions. *)
Definition group_labels (n num_conditions : Z) : list Z :=
  range num_conditions ≫= λ k, replicate (Z.to_nat n) k.
Definition default_cond_order (groups_tuple : list Z) (num_conditions : Z) : CondOrder :=
  (λ n, group_labels n num_conditions) <$> groups_tuple.

Section claimed.
Context {F : Type} {SF : Scalar F} {CF : Collaborators F}.

(** "V with orthonormal columns": [V.T @ V] is the identity. *)
Definition identity (k : nat) : np.matrix F := np.diag (replicate k fone).
Definition orthonormal_columns (V : np.matrix F) : Prop :=
  np.matmul (np.transpose V) V = Ok (identity (np.ncols V)).

(** "X minus the row-wise broadcast of its column means" *)
Definition centered (X : np.matrix F) : np.matrix F :=
  (λ row : np.vec F, zip_with fsub row (np.mean_axis0 X)) <$> X.

(** "that centered matrix divided by its Frobenius norm" *)
Definition frobenius_norm (M : np.matrix F) : F :=
  fsqrt (np.sum ((λ x, fmul x x) <$> concat M)).
Definition unit_frobenius (M : np.matrix F) : np.matrix F :=
  (λ row : np.vec F, (λ x, fdiv x (frobenius_norm M)) <$> row) <$> M.

(** "the orthogonal rotation that best aligns V_hat onto the reference V,
    obtained from the SVD of V^T @ V_hat (the orthogonal Procrustes
    solution)": the product of the two orthogonal factors of that SVD. *)
Definition procrustes_rotation (V V_hat : np.matrix F) : res (np.matrix F) :=
  M ← np.matmul (np.transpose V) V_hat;
  let '(U_bar, s_bar, V_bar) := linalg_svd M in
  np.matmul U_bar V_bar.

(** "the column norms of the preprocessed matrix projected onto the rotated
    right vectors" *)
Definition projected_column_norms (permuted V_rot : np.matrix F) : res (np.vec F) :=
  permuted_rot ← np.matmul permuted V_rot;
  mret (np.column_norms permuted_rot).

(** Rotation mode 1 of the permutation engine as the specification has it:
    decompose, rotate [V_hat] by the Procrustes rotation, project and take
    the column norms. *)
Definition rotated_singular_values (permuted V : np.matrix F) : res (np.vec F) :=
  let '(U_hat, s_hat, V_hat) := linalg_svd permuted in
  rot ← procrustes_rotation V V_hat;
  V_rot ← np.matmul V_hat rot;
  projected_column_norms permuted V_rot.

End claimed.
End claimed.

(** ** An arithmetic to run the model on: extended rationals *)

Module Rational.

(** Exact rationals in lowest terms, with the three special values of a float. *)
Inductive xq : Set :=
| Fin (q : Qc)
| PInf
| NInf
| NaN.

#[export] Instance xq_eq_dec : EqDecision xq.
Proof. solve_decision. Defined.

Definition of_Q (q : Q) : xq := Fin (Q2Qc q).

(** A finite value of sign [c] times an infinity that is positive or not. *)
Definition signed_inf (c : comparison) (positive : bool) : xq :=
  match c with
  | Eq => NaN
  | Gt => if positive then PInf else NInf
  | Lt => if positive then NInf else PInf
  end.

Definition xadd (a b : xq) : xq :=
  match a, b with
  | NaN, _ | _, NaN => NaN
  | Fin x, Fin y => Fin (x + y)%Qc
  | PInf, NInf | NInf, PInf => NaN
  | PInf, _ | _, PInf => PInf
  | NInf, _ | _, NInf => NInf
  end.

Definition xopp (a : xq) : xq :=
  match a with
  | Fin x => Fin (- x)%Qc
  | PInf => NInf
  | NInf => PInf
  | NaN => NaN
  end.

Definition xsub (a b : xq) : xq := xadd a (xopp b).

Definition xmul (a b : xq) : xq :=
  match a, b with
  | NaN, _ | _, NaN => NaN
  | Fin x, Fin y => Fin (x * y)%Qc
  | Fin x, PInf | PInf, Fin x => signed_inf (x ?= 0)%Qc true
  | Fin x, NInf | NInf, Fin x => signed_inf (x ?= 0)%Qc false
  | PInf, PInf | NInf, NInf => PInf
  | PInf, NInf | NInf, PInf => NInf
  end.

Definition xdiv (a b : xq) : xq :=
  match a, b with
  | NaN, _ | _, NaN => NaN
  | Fin x, Fin y =>
      match (y ?= 0)%Qc with
      | Eq => signed_inf (x ?= 0)%Qc true
      | _ => Fin (x / y)%Qc
      end
  | Fin _, _ => Fin 0%Qc
  | PInf, Fin y => match (y ?= 0)%Qc with Lt => NInf | _ => PInf end
  | NInf, Fin y => match (y ?= 0)%Qc with Lt => PInf | _ => NInf end
  | _, _ => NaN
  end.

(** The square root of num/den is sqrt(num * den) / den: exact on the squares
    of rationals, and rounded down to six decimal digits of sqrt(num * den)
    elsewhere. *)
Definition xsqrt (a : xq) : xq :=
  match a with
  | Fin x =>
      match (x ?= 0)%Qc with
      | Lt => NaN
      | _ => of_Q (Z.sqrt (Qnum x * Z.pos (Qden x) * 10 ^ 12)
                     # (Qden x * 1000000))
      end
  | PInf => PInf
  | _ => NaN
  end.

Definition xge (a b : xq) : bool :=
  match a, b with
  | NaN, _ | _, NaN => false
  | Fin x, Fin y => match (x ?= y)%Qc with Lt => false | _ => true end
  | PInf, _ | _, NInf => true
  | _, _ => false
  end.

Definition xfinite (a : xq) : bool :=
  match a with Fin _ => true | _ => false end.

#[export] Instance xq_scalar : Scalar xq := {|
  fzero := Fin 0%Qc;
  fone := Fin 1%Qc;
  fadd := xadd;
  fsub := xsub;
  fmul := xmul;
  fdiv := xdiv;
  fsqrt := xsqrt;
  fge := xge;
  fof_Z := λ z, of_Q (inject_Z z);
  is_finite := xfinite
|}.

(** A matrix of integers, as floats. *)
Definition of_Zs (M : list (list Z)) : np.matrix xq :=
  (λ row : list Z, (λ z, of_Q (inject_Z z)) <$> row) <$> M.

(** A finite entry as the rational, for display. *)
Definition to_Q (a : xq) : option Q :=
  match a with Fin x => Some (this x) | _ => None end.

(** *** Collaborators for the examples *)

(** The rows of [M] at the given indices. *)
Definition take_rows (idx : list nat) (M : np.matrix xq) : np.matrix xq :=
  (λ i, nth i M []) <$> idx.

(** The generator is a counter.  In state [g] the permutation of [n] rows
    is the rotation by [g], and the sample with replacement takes row
    [i * (g + 1) mod n] as its row [i]. *)
Definition permutation_indices (g n : nat) : list nat :=
  (λ i, (i + g) `mod` n)%nat <$> seq 0 n.
Definition bootstrap_indices (g n : nat) : list nat :=
  (λ i, (i * (g + 1)) `mod` n)%nat <$> seq 0 n.

(** The inverse of a diagonal matrix with no zero on the diagonal; another
    matrix is reported as singular. *)
Definition inv_diagonal (M : np.matrix xq) : res (np.matrix xq) :=
  let d := imap (λ i row, nth i row (Fin 0%Qc)) M in
  if decide (M = np.diag d ∧ Forall (λ x, x ≠ Fin 0%Qc) d)
  then Ok (np.diag ((λ x, xdiv (Fin 1%Qc) x) <$> d))
  else Err LinAlgError.

(** Singular value decompositions (U, s, Vh) of the matrices the examples
    decompose. *)
Definition svd_table : list (np.matrix xq * (np.matrix xq * np.vec xq * np.matrix xq)) :=
  [ (of_Zs [[0; 2]; [1; 0]],
      (of_Zs [[1; 0]; [0; 1]], [of_Q 2; of_Q 1], of_Zs [[0; 1]; [1; 0]]));
    (of_Zs [[0; 1]; [1; 0]],
      (of_Zs [[1; 0]; [0; 1]], [of_Q 1; of_Q 1], of_Zs [[0; 1]; [1; 0]]));
    (of_Zs [[2; 0]; [0; 1]],
      (of_Zs [[1; 0]; [0; 1]], [of_Q 2; of_Q 1], of_Zs [[1; 0]; [0; 1]]));
    (of_Zs [[1; 0]; [0; 1]],
      (of_Zs [[1; 0]; [0; 1]], [of_Q 1; of_Q 1], of_Zs [[1; 0]; [0; 1]]));
    (of_Zs [[2; 0]; [0; 1]; [0; 0]],
      (of_Zs [[1; 0]; [0; 1]; [0; 0]], [of_Q 2; of_Q 1], of_Zs [[1; 0]; [0; 1]]));
    ([[of_Q (1#2)]; [of_Q (1#2)]; [of_Q (-1#2)]; [of_Q (-1#2)]],
      ([[of_Q (1#2)]; [of_Q (1#2)]; [of_Q (-1#2)]; [of_Q (-1#2)]], [of_Q 1], of_Zs [[1]])) ].

Definition svd_lookup (M : np.matrix xq) : np.matrix xq * np.vec xq * np.matrix xq :=
  default ([], [], []) ((list_find (λ e, e.1 = M) svd_table) ≫= λ e, Some e.2.2).

(** Sorting by insertion, in increasing order. *)
Definition insert_sorted (x : xq) (l : list xq) : list xq :=
  filter (λ y, xge x y = true ∧ x ≠ y) l ++ x :: filter (λ y, ¬ (xge x y = true ∧ x ≠ y)) l.
Definition sort (l : list xq) : list xq := foldr insert_sorted [] l.

(** The quantile of a sample at [num / den], by linear interpolation between
    the two nearest ranks of the sorted sample. *)
Definition quantile (num den : nat) (l : list xq) : xq :=
  let sorted := sort l in
  let pos := (num * (length l - 1))%nat in
  let i := (pos / den)%nat in
  let frac := of_Q (Z.of_nat (pos `mod` den) # Pos.of_nat den) in
  let lo := nth i sorted NaN in
  let hi := nth (S i) sorted lo in
  xadd lo (xmul frac (xsub hi lo)).

(** Modelled from the spec: [resample.confidence_interval] is not among the
    source files.  It is the element-wise quantile across the iteration axis
    at a pair of bounds, and the bounds it uses when it is given none are the
    (0.05, 0.95) that the class documents as the default of [dist]. *)
Definition quantile_interval (lo hi : nat * nat) (a : list (np.matrix xq))
  : np.matrix xq * np.matrix xq :=
  let cell (b : nat * nat) (i j : nat) :=
    quantile b.1 b.2 ((λ M : np.matrix xq, nth j (nth i M []) NaN) <$> a) in
  let bound (b : nat * nat) :=
    match a with
    | [] => []
    | M :: _ => imap (λ i row, imap (λ j _, cell b i j) row) M
    end in
  (bound lo, bound hi).

(** A [preprocess] that hands the resampled matrix on as it is. *)
Definition pass_through : preprocess_fn xq := λ X_new Y_new co, Ok X_new.

(** The entries of a matrix as rationals, [None] for inf and nan. *)
Definition show (M : np.matrix xq) : list (list (option Q)) :=
  (λ row : np.vec xq, to_Q <$> row) <$> M.

#[export] Instance examples : Collaborators xq := {|
  rng := nat;
  resample_without_replacement := λ g M co,
    (take_rows (permutation_indices g (length M)) M, S g);
  resample_with_replacement := λ g M co,
    (take_rows (bootstrap_indices g (length M)) M, S g);
  confidence_interval := quantile_interval (5, 100)%nat (95, 100)%nat;
  linalg_svd := svd_lookup;
  linalg_inv := inv_diagonal;
  gsvd := λ M, let '(U, s, Vh) := svd_lookup M in (U, s, np.transpose Vh)
|}.

End Rational.

(** ** The registries of the two abstract base classes *)

(** [ResampleTest] and [PLSBase] carry the same three class members: the
    dict [_subclasses], the dict [_pls_types] and the class methods
    [_register_subclass] and [_create]. *)
Module registry.

(** [_pls_types], the same literal in both files; the multi-group entry is
    commented out in both. *)
Definition _pls_types : gmap string string :=
  list_to_map
    [ ("mct", "Mean-Centering Task PLS");
      ("nrt", "Non-Rotated Task PLS");
      ("rb", "Regular Behaviour PLS");
      ("mb", "Multiblock PLS");
      ("nrb", "Non-Rotated Behaviour PLS");
      ("nrmb", "Non-Rotated Multiblock PLS") ]%string.

Section registry.
Context {C R : Type}.

(** [_register_subclass(pls_method)(subclass)]: the decorator stores the class
    under the key, [cls._subclasses[pls_method] = subclass]. *)
Definition _register_subclass (_subclasses : gmap string C) (pls_method : string)
    (subclass : C) : gmap string C :=
  <[pls_method := subclass]> _subclasses.

(** [_create(pls_method, args, kwargs)]; [construct] is the call of the class
    found with the arguments passed on.  A key that is not registered raises
    NotImplementedError when [_pls_types] knows it and ValueError when not. *)
Definition _create (_subclasses : gmap string C) (_pls_types : gmap string string)
    (construct : C → res R) (pls_method : string) : res R :=
  match _subclasses !! pls_method with
  | None =>
      if decide (is_Some (_pls_types !! pls_method))
      then Err NotImplementedError
      else Err ValueError
  | Some subclass => construct subclass
  end.

End registry.
End registry.

(** [ResampleTest] of [bootstrap_permutation.py], after the module has been
    imported: the two decorators on [_ResampleTestTaskPLS] have run, the one
    nearer to the class ("rb") first. *)
Module ResampleTest.

Definition _subclasses : gmap string bootstrap_permutation.member :=
  registry._register_subclass
    (registry._register_subclass ∅ "rb" bootstrap_permutation.class__ResampleTestTaskPLS)
    "mct" bootstrap_permutation.class__ResampleTestTaskPLS.

Definition _create {F : Type} {SF : Scalar F} {CF : Collaborators F}
    (pls_method : string) (args : list (bootstrap_permutation.pyval F))
    (kwargs : list (string * bootstrap_permutation.pyval F)) (g : rng)
  : res (bootstrap_permutation._ResampleTestTaskPLS.instance F * rng) :=
  registry._create _subclasses registry._pls_types
    (λ subclass, bootstrap_permutation.call subclass args kwargs g) pls_method.

End ResampleTest.

(** [PLSBase] of [pls_classes.py], after the module has been imported. *)
Module PLSBase.

Inductive subclass : Set := class__MeanCenterTaskSingleGroupPLS.

Definition _subclasses : gmap string subclass :=
  registry._register_subclass ∅ "mct" class__MeanCenterTaskSingleGroupPLS.

(** [construct] is the call of the registered class with the arguments
    that [_create] passes on untouched. *)
Definition _create {R : Type} (construct : subclass → res R) (pls_method : string)
  : res R :=
  registry._create _subclasses registry._pls_types construct pls_method.

End PLSBase.

(** ** Printing the driver *)

Module driver_printing.

Definition newline : string := String (Ascii.ascii_of_nat 10) EmptyString.
Definition tab : string := String (Ascii.ascii_of_nat 9) EmptyString.

(** [text.replace(newline, newline + tab)] *)
Fixpoint indent_lines (text : string) : string :=
  match text with
  | EmptyString => EmptyString
  | String c rest =>
      if decide (c = Ascii.ascii_of_nat 10)
      then String c (String (Ascii.ascii_of_nat 9) (indent_lines rest))
      else String c (indent_lines rest)
  end.

(** The attributes that [__init__] assigns, in order, when it is given no
    extra keyword arguments. *)
Definition __init___attributes : list string :=
  [ "X"; "groups_sizes"; "num_groups"; "num_conditions"; "cond_order";
    "num_perm"; "num_boot"; "X_means"; "X_mc"; "U"; "s"; "V"; "X_latent";
    "resample_tests" ]%string.

Section printing.
(** The attribute values, with [str(v)] and the subscript [d[k]]. *)
Context {V : Type} (str : V → string) (getitem : V → V → res V).

(** [self.<name>] for a name that none of the classes of the driver defines
    ([pls_types] and [pls_alg]; the class attribute is [_pls_types]): the
    instance dict decides. *)
Definition getattr_self (__dict__ : list (string * V)) (name : string) : res V :=
  match list_find (λ kv, kv.1 = name) __dict__ with
  | Some (_, (_, v)) => Ok v
  | None => Err AttributeError
  end.

(** [__repr__(self)]; [__dict__] is the instance dict in insertion order. *)
Definition __repr__ (__dict__ : list (string * V)) : res string :=
  pls_types ← getattr_self __dict__ "pls_types";
  pls_alg ← getattr_self __dict__ "pls_alg";
  name ← getitem pls_types pls_alg;
  let info := (newline +:+ "Algorithm: " +:+ str name +:+ newline +:+ newline)%string in
  mret (foldl (λ stg kv, (stg +:+ newline +:+ kv.1 +:+ ":" +:+ newline +:+ tab
                              +:+ indent_lines (str kv.2))%string)
              info __dict__).

(** [__str__(self)], the same statements. *)
Definition __str__ (__dict__ : list (string * V)) : res string :=
  pls_types ← getattr_self __dict__ "pls_types";
  pls_alg ← getattr_self __dict__ "pls_alg";
  name ← getitem pls_types pls_alg;
  let info := (newline +:+ "Algorithm: " +:+ str name +:+ newline +:+ newline)%string in
  mret (foldl (λ stg kv, (stg +:+ newline +:+ kv.1 +:+ ":" +:+ newline +:+ tab
                              +:+ indent_lines (str kv.2))%string)
              info __dict__).

End printing.
End driver_printing.

(** ** The invariant of the permutation loop *)

(** What [k] rounds leave in [greatersum]: one count per entry of [s], each
    between 0 and [k]. *)
Definition counts_upto {F : Type} {CF : Collaborators F} (s : np.vec F) (k : nat)
    (st : bootstrap_permutation._ResampleTestTaskPLS.permutation_state F) : Prop :=
  length (bootstrap_permutation._ResampleTestTaskPLS.greatersum st) = length s ∧
  Forall (λ c, 0 ≤ c ≤ Z.of_nat k)
         (bootstrap_permutation._ResampleTestTaskPLS.greatersum st).

(** Closed statements about the examples are decided by evaluation. *)
Ltac by_evaluation :=
  match goal with |- ?P => apply (bool_decide_unpack P); vm_compute; exact I end.

(** * Properties *)

(** ** Loops and arrays *)

(** A loop whose body keeps an invariant that is indexed by the number of
    rounds done. *)
Lemma for_each_invariant {St I : Type} (body : I → St → exn * St + St)
    (P : nat → St → Prop) (l : list I) :
  (∀ i k st st', P k st → body i st = inr st' → P (S k) st') →
  ∀ k st st', P k st → for_each body l st = inr st' → P (k + length l)%nat st'.
Proof.
  intros step. induction l as [|i l IH]; intros k st st' HP Hrun; simpl in *.
  - replace (k + 0)%nat with k by lia. congruence.
  - destruct (body i st) as [e|st1] eqn:Hb; [done|].
    replace (k + S (length l))%nat with (S k + length l)%nat by lia.
    eapply IH; [|exact Hrun]. eapply step; eauto.
Qed.

(** A loop whose body cannot raise from a state of the invariant. *)
Lemma for_each_total {St I : Type} (body : I → St → exn * St + St)
    (P : St → Prop) (l : list I) :
  (∀ i st, P st → ∃ st', body i st = inr st' ∧ P st') →
  ∀ st, P st → ∃ st', for_each body l st = inr st' ∧ P st'.
Proof.
  intros step. induction l as [|i l IH]; intros st HP; simpl; [by eauto|].
  destruct (step i st HP) as (st1 & -> & HP1). by apply IH.
Qed.

Section array_facts.
Context {F : Type} {SF : Scalar F}.

Lemma stretch_length {A : Type} (n : nat) (l : list A) :
  length l = n ∨ length l = 1%nat → length (np.stretch n l) = n.
Proof.
  unfold np.stretch. intros Hl. destruct (decide (length l = n)); [done|].
  destruct Hl as [?|Hl]; [done|].
  destruct l as [|x [|??]]; simplify_eq/=. by rewrite length_replicate.
Qed.

Lemma stretch_same {A : Type} (l : list A) : np.stretch (length l) l = l.
Proof. unfold np.stretch. by rewrite decide_True. Qed.

Lemma bdim_same (n : nat) : np.bdim n n = Some n.
Proof. unfold np.bdim. by rewrite decide_True. Qed.

Lemma iadd_flags_spec (acc acc' : list Z) (flags : list bool) :
  np.iadd_flags acc flags = Ok acc' →
  length acc' = length acc ∧ Forall2 (λ c c', c ≤ c' ≤ c + 1) acc acc'.
Proof.
  unfold np.iadd_flags. destruct (decide _) as [Hl|]; [|done].
  intros [= <-]. pose proof (stretch_length (length acc) flags Hl) as Hs.
  revert Hs. generalize (np.stretch (length acc) flags). clear Hl flags.
  induction acc as [|c acc IH]; intros [|t fl] Hs; simplify_eq/=; [done|].
  destruct (IH fl Hs) as [-> ?]. split; [done|].
  constructor; [destruct t; simpl; lia|done].
Qed.

Lemma iadd_flags_same_length (acc : list Z) (flags : list bool) :
  length flags = length acc → ∃ acc', np.iadd_flags acc flags = Ok acc'.
Proof. intros Hl. unfold np.iadd_flags. rewrite decide_True; eauto. Qed.

Lemma greater_equal_same_length (a b : np.vec F) :
  length a = length b →
  ∃ flags, np.greater_equal a b = Ok flags ∧ length flags = length b.
Proof.
  intros Hl. unfold np.greater_equal. rewrite Hl, bdim_same.
  eexists; split; [done|].
  rewrite length_zip_with, stretch_same, <- Hl, stretch_same. lia.
Qed.

End array_facts.

(** ** The permutation test *)

Section permutation_facts.
Context {F : Type} {SF : Scalar F} {CF : Collaborators F}.
Import bootstrap_permutation._ResampleTestTaskPLS.

Lemma counts_upto_initial (s : np.vec F) (g : rng) :
  counts_upto s 0 {| perm_rng := g; greatersum := np.zeros (length s) |}.
Proof.
  split; simpl; unfold np.zeros; [by rewrite length_replicate|].
  apply Forall_replicate. lia.
Qed.

Lemma permutation_round_counts X Y s V co preprocess rotate_method i k st st' :
  counts_upto s k st →
  permutation_round X Y s V co preprocess rotate_method i st = inr st' →
  counts_upto s (S k) st'.
Proof.
  intros [Hlen Hrange]. unfold permutation_round.
  destruct (permutation_round_s_hat _ _ _ _ _ _ _) as [r g'].
  destruct (_ ≫= _) as [acc|e] eqn:Hacc; [|done]. intros [= <-]. simpl.
  destruct r as [s_hat|]; [|done]. simpl in Hacc.
  destruct (np.greater_equal s_hat s) as [flags|]; [|done]. simpl in Hacc.
  apply iadd_flags_spec in Hacc as [Hl Hstep]. split; simpl; [congruence|].
  clear Hlen Hl. induction Hstep as [|c c' ?? [??]]; [done|].
  apply Forall_cons in Hrange as [[??] ?]. constructor; [lia|auto].
Qed.

Lemma true_divide_count_range (niter : nat) (c : Z) :
  (1 ≤ niter)%nat → 0 ≤ c ≤ Z.of_nat niter →
  ∃ q, np.true_divide_count niter c = Some q ∧ (0 <= q <= 1)%Q.
Proof.
  intros Hn [Hc0 Hc1]. unfold np.true_divide_count.
  rewrite decide_False by lia. eexists; split; [done|].
  assert (Z.pos (Pos.of_nat niter) = Z.of_nat niter) as Hpos.
  { rewrite <- positive_nat_Z, Nat2Pos.id; lia. }
  unfold Qle; simpl. rewrite Hpos. lia.
Qed.

(** Whenever the permutation test returns, the ratio has the shape of [s] and
    its entries are in [0, 1]: in every rotation mode, and whatever the
    resampler, the preprocessing and the decomposition do. *)
Lemma permutation_ratio_when_returned
    X Y U s V co ngroups niter preprocess rotate_method g ratio st :
  (1 ≤ niter)%nat →
  _permutation_test X Y U s V co ngroups niter preprocess rotate_method g
    = Returned ratio st →
  length ratio = length s ∧
  Forall (λ r, ∃ q, r = Some q ∧ (0 <= q <= 1)%Q) ratio.
Proof.
  intros Hn. unfold _permutation_test, for_range.
  destruct (for_each _ _ _) as [[e st1]|st1] eqn:Hloop; [done|]. intros [= <- <-].
  eapply (for_each_invariant _ (counts_upto s)) in Hloop as [Hlen Hrange];
    [| intros; by eapply permutation_round_counts | apply counts_upto_initial].
  rewrite length_seq in Hrange. split; [by rewrite length_fmap|].
  apply Forall_fmap. eapply Forall_impl; [exact Hrange|]. simpl.
  intros c Hc. by apply true_divide_count_range.
Qed.

(** When every round derives singular values of the shape of [s], no round
    raises. *)
Lemma permutation_round_total X Y s V co preprocess rotate_method i st :
  (∀ g', ∃ s_hat,
     (permutation_round_s_hat X Y V co preprocess rotate_method g').1 = Ok s_hat ∧
     length s_hat = length s) →
  length (greatersum st) = length s →
  ∃ st', permutation_round X Y s V co preprocess rotate_method i st = inr st' ∧
         length (greatersum st') = length s.
Proof.
  intros Hround Hlen. unfold permutation_round.
  destruct (Hround (perm_rng st)) as (s_hat & Hs & Hl).
  destruct (permutation_round_s_hat _ _ _ _ _ _ _) as [r g']. simpl in Hs. subst r.
  simpl. destruct (greater_equal_same_length s_hat s Hl) as (flags & -> & Hfl). simpl.
  destruct (iadd_flags_same_length (greatersum st) flags) as [acc Hacc]; [congruence|].
  rewrite Hacc. eexists; split; [done|]. simpl.
  apply iadd_flags_spec in Hacc as [-> _]. done.
Qed.


End permutation_facts.

(** ** An unsupported rotation mode *)

Section unsupported_rotation.
Context {F : Type} {SF : Scalar F} {CF : Collaborators F}.
Import bootstrap_permutation._ResampleTestTaskPLS.

Lemma permutation_s_hat_unsupported (rotate_method : Z) (permuted V : np.matrix F) :
  rotate_method ≠ 0 → rotate_method ≠ 1 → rotate_method ≠ 2 →
  permutation_s_hat rotate_method permuted V = Err NotImplementedError.
Proof. intros. unfold permutation_s_hat. by rewrite !decide_False. Qed.

Lemma bootstrap_vectors_unsupported (rotate_method : Z) (permuted U V : np.matrix F) :
  rotate_method ≠ 0 → rotate_method ≠ 1 → rotate_method ≠ 2 →
  bootstrap_vectors rotate_method permuted U V = Err NotImplementedError.
Proof. intros. unfold bootstrap_vectors. by rewrite !decide_False. Qed.

(** C5.  With a rotation mode other than 0, 1 and 2, at least one iteration
    and a preprocessing function that does not raise, both engines raise
    NotImplementedError in their first round: the permutation test with
    [greatersum] still all zeros, the bootstrap test with no slot of either
    sampled array written; neither returns a result. *)
Theorem unsupported_rotation_raises_before_any_update
    X Y U s V co ngroups niter (f : preprocess_fn F) rotate_method dist g :
  rotate_method ≠ 0 → rotate_method ≠ 1 → rotate_method ≠ 2 →
  (1 ≤ niter)%nat →
  (∀ X_new Y_new, ∃ permuted, f X_new Y_new co = Ok permuted) →
  (∃ st, _permutation_test X Y U s V co ngroups niter (Some f) rotate_method g
           = Raised NotImplementedError st ∧
         greatersum st = np.zeros (length s)) ∧
  (∃ st, _bootstrap_test X Y U s V co ngroups niter (Some f) rotate_method dist g
           = Raised NotImplementedError st ∧
         left_sv_sampled st = replicate niter None ∧
         right_sv_sampled st = replicate niter None).
Proof.
  intros H0 H1 H2 Hn Hf. destruct niter as [|n]; [lia|]. split.
  - unfold _permutation_test, for_range. cbn [seq for_each].
    unfold permutation_round, permutation_round_s_hat. cbn [perm_rng greatersum].
    destruct (resampled_pair _ _ _ _ _) as [[X_new Y_new] g'].
    destruct (Hf X_new Y_new) as [permuted Hp]. cbn [call_preprocess]. rewrite Hp.
    cbn [mbind res_bind]. rewrite permutation_s_hat_unsupported by done.
    eexists; split; done.
  - unfold _bootstrap_test, for_range. cbn [seq for_each].
    unfold bootstrap_round, bootstrap_round_vectors.
    cbn [boot_rng left_sv_sampled right_sv_sampled].
    destruct (resampled_pair _ _ _ _ _) as [[X_new Y_new] g'].
    destruct (Hf X_new Y_new) as [permuted Hp]. cbn [call_preprocess]. rewrite Hp.
    cbn [mbind res_bind]. rewrite bootstrap_vectors_unsupported by done.
    eexists; split; done.
Qed.

End unsupported_rotation.

Section unsupported_rotation_returns_nothing.
Context {F : Type} {SF : Scalar F} {CF : Collaborators F}.
Import bootstrap_permutation._ResampleTestTaskPLS.


End unsupported_rotation_returns_nothing.

(** ** The bootstrap test *)

Section shape_facts.
Context {F : Type} {SF : Scalar F}.

Lemma has_shape_canonical (r c : nat) (M : np.matrix F) :
  np.has_shape r c M → np.has_shape (np.nrows M) (np.ncols M) M.
Proof.
  intros [_ Hrows]. split; [done|]. destruct M as [|row M]; [done|].
  apply Forall_cons in Hrows as [Hrow Hrows]. simpl.
  constructor; [done|]. eapply Forall_impl; [exact Hrows|]. simpl. congruence.
Qed.

Lemma sem_has_shape (r c : nat) (a : list (np.matrix F)) :
  np.has_shape r c (scipy_stats.sem r c a).
Proof.
  unfold scipy_stats.sem. split; [by rewrite length_fmap, length_seq|].
  apply Forall_fmap, Forall_forall. intros i _. simpl.
  by rewrite length_fmap, length_seq.
Qed.

Lemma zip_with_stretch_rows (op : F → F → F) (c : nat) (A B : np.matrix F) :
  Forall (λ row, length row = c) A → Forall (λ row, length row = c) B →
  zip_with (λ ra rb, zip_with op (np.stretch c ra) (np.stretch c rb)) A B
  = zip_with (zip_with op) A B.
Proof.
  intros HA. revert B. induction HA as [|ra A Hra HA IH]; intros B HB; [done|].
  destruct HB as [|rb B Hrb HB]; [done|]. simpl.
  rewrite <- Hra at 1. rewrite stretch_same.
  rewrite <- Hrb at 1. rewrite stretch_same. f_equal. by apply IH.
Qed.

(** Two arrays of one shape are combined entry by entry. *)
Lemma broadcast2_same_shape (op : F → F → F) (r c : nat) (A B : np.matrix F) :
  np.has_shape r c A → np.has_shape r c B →
  np.broadcast2 op A B = Ok (zip_with (zip_with op) A B).
Proof.
  intros HA HB.
  pose proof (has_shape_canonical _ _ _ HA) as [_ HA'].
  pose proof (has_shape_canonical _ _ _ HB) as [_ HB'].
  destruct HA as [HrA HcA], HB as [HrB HcB].
  assert (np.ncols B = np.ncols A) as Hc.
  { destruct A as [|ra A], B as [|rb B]; simplify_eq/=; [done|].
    apply Forall_cons in HcA as [-> _]. by apply Forall_cons in HcB as [-> _]. }
  unfold np.broadcast2, np.nrows. rewrite HrB, <- HrA, Hc, !bdim_same.
  rewrite stretch_same. replace (length A) with (length B) by congruence.
  rewrite stretch_same. rewrite Hc in HB'. by rewrite zip_with_stretch_rows.
Qed.

End shape_facts.

Section bootstrap_facts.
Context {F : Type} {SF : Scalar F} {CF : Collaborators F}.
Import bootstrap_permutation._ResampleTestTaskPLS.

(** When there is a [Y], it is resampled by a second call, on the generator
    state that the call for [X] has left. *)
Lemma resampled_pair_with_Y
    (resample : rng → np.matrix F → CondOrder → np.matrix F * rng) g X Y co :
  resampled_pair resample g X (Some Y) co
  = ((resample g X co).1,
     Some (resample (resample g X co).2 Y co).1,
     (resample (resample g X co).2 Y co).2).
Proof.
  unfold resampled_pair. destruct (resample g X co) as [X_new g1]. simpl.
  by destruct (resample g1 Y co).
Qed.

(** The bootstrap test never reads its [dist] argument. *)
Lemma bootstrap_test_ignores_dist
    X Y U s V co ngroups niter preprocess rotate_method (dist dist' : F * F) g :
  _bootstrap_test X Y U s V co ngroups niter preprocess rotate_method dist g
  = _bootstrap_test X Y U s V co ngroups niter preprocess rotate_method dist' g.
Proof. reflexivity. Qed.

(** What the bootstrap test returns, when it returns. *)
Lemma bootstrap_test_when_returned
    X Y U s V co ngroups niter preprocess rotate_method dist g ci se br st (r c : nat) :
  np.has_shape r c V →
  _bootstrap_test X Y U s V co ngroups niter preprocess rotate_method dist g
    = Returned (ci, se, br) st →
  ci = confidence_interval (written (left_sv_sampled st)) ∧
  se = scipy_stats.sem (np.nrows V) (np.ncols V) (written (right_sv_sampled st)) ∧
  np.divide se V = Ok br ∧
  br = zip_with (zip_with fdiv) se V.
Proof.
  intros HV. unfold _bootstrap_test.
  destruct (for_range _ _ _) as [[e st1]|st1]; [done|].
  destruct (np.divide _ V) as [br'|] eqn:Hdiv; [|done]. intros [= <- <- <- <-].
  repeat split; [done|]. unfold np.divide in Hdiv.
  erewrite broadcast2_same_shape in Hdiv;
    [| apply sem_has_shape | by eapply has_shape_canonical]. congruence.
Qed.

(** When every round derives a pair of matrices that fit the slots, no round
    raises, and neither does the division after the loop. *)
Lemma bootstrap_test_total
    X Y U s V co ngroups niter preprocess rotate_method dist g (r c : nat) :
  np.has_shape r c V →
  (∀ g', ∃ U_hat V_hat U_slot V_slot,
     (bootstrap_round_vectors X Y U V co preprocess rotate_method g').1
       = Ok (U_hat, V_hat) ∧
     np.broadcast_to (np.nrows U) (np.ncols U) U_hat = Ok U_slot ∧
     np.broadcast_to (np.nrows V) (np.ncols V) V_hat = Ok V_slot) →
  ∃ ci se br st,
    _bootstrap_test X Y U s V co ngroups niter preprocess rotate_method dist g
      = Returned (ci, se, br) st.
Proof.
  intros HV Hround. unfold _bootstrap_test, for_range.
  edestruct (for_each_total (bootstrap_round X Y U V co preprocess rotate_method)
               (λ _, True) (seq 0 niter)) as (st' & -> & _).
  - intros i st _. unfold bootstrap_round.
    destruct (Hround (boot_rng st)) as (U_hat & V_hat & U_slot & V_slot & Hv & HU & HVs).
    destruct (bootstrap_round_vectors _ _ _ _ _ _ _ _) as [rv g']. simpl in Hv. subst rv.
    rewrite HU, HVs. eauto.
  - done.
  - unfold np.divide. erewrite broadcast2_same_shape;
      [| apply sem_has_shape | by eapply has_shape_canonical]. eauto 10.
Qed.

(** C6.  On the inputs on which every round derives a pair of matrices that
    fit the slots, and in an arithmetic where a division by zero is never
    finite, the bootstrap test returns as its bootstrap ratios the
    element-wise quotient of the standard errors by the reference [V]; where
    [V] holds a zero, the ratio at that position is that quotient by zero, a
    value that is not finite. *)
Theorem bootstrap_ratios_are_std_errs_over_V
    X Y U s V co ngroups niter preprocess rotate_method dist g (r c : nat) :
  np.has_shape r c V →
  (∀ x : F, is_finite (fdiv x fzero) = false) →
  (∀ g', ∃ U_hat V_hat U_slot V_slot,
     (bootstrap_round_vectors X Y U V co preprocess rotate_method g').1
       = Ok (U_hat, V_hat) ∧
     np.broadcast_to (np.nrows U) (np.ncols U) U_hat = Ok U_slot ∧
     np.broadcast_to (np.nrows V) (np.ncols V) V_hat = Ok V_slot) →
  ∃ ci se br st,
    _bootstrap_test X Y U s V co ngroups niter preprocess rotate_method dist g
      = Returned (ci, se, br) st ∧
    se = scipy_stats.sem (np.nrows V) (np.ncols V) (written (right_sv_sampled st)) ∧
    np.divide se V = Ok br ∧
    (∀ i j row v, V !! i = Some row → row !! j = Some v →
       ∃ se_row e br_row x,
         se !! i = Some se_row ∧ se_row !! j = Some e ∧
         br !! i = Some br_row ∧ br_row !! j = Some x ∧
         x = fdiv e v ∧
         (v = fzero → is_finite x = false)).
Proof.
  intros HV Hzero Hround.
  destruct (bootstrap_test_total X Y U s V co ngroups niter preprocess rotate_method
              dist g r c HV Hround) as (ci & se & br & st & Hrun).
  exists ci, se, br, st. split; [done|].
  destruct (bootstrap_test_when_returned _ _ _ _ _ _ _ _ _ _ _ _ _ _ _ _ _ _ HV Hrun)
    as (_ & Hse & Hdiv & Hbr).
  repeat split; [done..|]. intros i j row v Hi Hj.
  pose proof (sem_has_shape (np.nrows V) (np.ncols V)
                (written (right_sv_sampled st))) as [Hr Hc].
  rewrite <- Hse in Hr, Hc.
  pose proof (has_shape_canonical _ _ _ HV) as [_ HVc].
  assert (i < length se)%nat as Hlt.
  { rewrite Hr. unfold np.nrows. by eapply lookup_lt_Some. }
  destruct (lookup_lt_is_Some_2 se i Hlt) as [se_row Hsi].
  assert (length se_row = np.ncols V) as Hlen.
  { by eapply (proj1 (Forall_lookup _ _) Hc). }
  assert (length row = np.ncols V) as Hlen'.
  { by eapply (proj1 (Forall_lookup _ _) HVc). }
  assert (j < length se_row)%nat as Hlt'.
  { rewrite Hlen, <- Hlen'. by eapply lookup_lt_Some. }
  destruct (lookup_lt_is_Some_2 se_row j Hlt') as [e Hej].
  exists se_row, e, (zip_with fdiv se_row row), (fdiv e v).
  repeat split; [done|done| | | ].
  - rewrite Hbr, lookup_zip_with, Hsi, Hi. done.
  - rewrite lookup_zip_with, Hej, Hj. done.
  - intros ->. apply Hzero.
Qed.

End bootstrap_facts.

(** ** Transposes and products *)

Section transpose_facts.
Context {F : Type} {SF : Scalar F}.

Lemma has_shape_ncols (r c : nat) (M : np.matrix F) :
  np.has_shape r c M → (0 < r)%nat → np.ncols M = c.
Proof.
  intros [Hr Hc] Hpos. destruct M as [|row M]; simplify_eq/=; [lia|].
  by apply Forall_cons in Hc as [? _].
Qed.

Lemma lookup_transpose (M : np.matrix F) (j : nat) :
  (j < np.ncols M)%nat → np.transpose M !! j = Some (np.column j M).
Proof.
  intros Hj. unfold np.transpose. by rewrite list_lookup_fmap, lookup_seq_lt.
Qed.

Lemma length_transpose (M : np.matrix F) : length (np.transpose M) = np.ncols M.
Proof. unfold np.transpose. by rewrite length_fmap, length_seq. Qed.

Lemma length_column (j : nat) (M : np.matrix F) : length (np.column j M) = length M.
Proof. unfold np.column. by rewrite length_fmap. Qed.

Lemma transpose_has_shape (r c : nat) (M : np.matrix F) :
  np.has_shape r c M → (0 < r)%nat → np.has_shape c r (np.transpose M).
Proof.
  intros HM Hpos. pose proof (has_shape_ncols _ _ _ HM Hpos) as Hc.
  destruct HM as [Hr _]. split; [by rewrite length_transpose|].
  unfold np.transpose. apply Forall_fmap, Forall_forall. intros j _. simpl.
  by rewrite length_column.
Qed.

Lemma nth_column (i j : nat) (M : np.matrix F) (row : list F) :
  M !! i = Some row → nth i (np.column j M) fzero = nth j row fzero.
Proof.
  intros Hi. unfold np.column. rewrite nth_lookup, list_lookup_fmap, Hi. done.
Qed.

(** Transposing twice gives the array back. *)
Lemma transpose_involutive (r c : nat) (M : np.matrix F) :
  np.has_shape r c M → (0 < r)%nat → (0 < c)%nat →
  np.transpose (np.transpose M) = M.
Proof.
  intros HM Hr Hc.
  pose proof (transpose_has_shape _ _ _ HM Hr) as HT.
  pose proof (has_shape_ncols _ _ _ HT Hc) as HcT.
  pose proof (has_shape_ncols _ _ _ HM Hr) as HcM.
  destruct HM as [Hlen Hrows].
  apply list_eq. intros i. destruct (decide (i < r)%nat) as [Hi|Hi].
  - rewrite lookup_transpose by lia.
    destruct (lookup_lt_is_Some_2 M i) as [row Hrow]; [lia|]. rewrite Hrow. f_equal.
    assert (length row = c) as Hlrow by (by eapply (proj1 (Forall_lookup _ _) Hrows)).
    apply list_eq. intros j. unfold np.column at 1.
    rewrite list_lookup_fmap. destruct (decide (j < c)%nat) as [Hj|Hj].
    + rewrite lookup_transpose by lia. simpl.
      rewrite (nth_column i j M row Hrow), nth_lookup.
      destruct (lookup_lt_is_Some_2 row j) as [x ->]; [lia|]. done.
    + rewrite (lookup_ge_None_2 row j) by lia.
      rewrite (lookup_ge_None_2 (np.transpose M) j); [done|].
      rewrite length_transpose. lia.
  - rewrite (lookup_ge_None_2 M i) by lia. apply lookup_ge_None_2.
    rewrite length_transpose. lia.
Qed.

Lemma dot_comm (u v : np.vec F) :
  (∀ x y : F, fmul x y = fmul y x) → np.dot u v = np.dot v u.
Proof.
  intros Hcomm. unfold np.dot. f_equal. revert v.
  induction u as [|x u IH]; intros [|y v]; simpl; [done..|]. by rewrite Hcomm, IH.
Qed.

(** The shape and the entries of a product. *)
Lemma matmul_has_shape (m n k : nat) (A B : np.matrix F) :
  np.has_shape m n A → np.has_shape n k B → (0 < m)%nat → (0 < n)%nat →
  ∃ AB, np.matmul A B = Ok AB ∧ np.has_shape m k AB ∧
        AB = (λ row, (λ j, np.dot row (np.column j B)) <$> seq 0 k) <$> A.
Proof.
  intros HA HB Hm Hn.
  pose proof (has_shape_ncols _ _ _ HA Hm) as HcA.
  pose proof (has_shape_ncols _ _ _ HB Hn) as HcB.
  unfold np.matmul. rewrite decide_True by (destruct HB; unfold np.nrows; congruence).
  eexists; split; [done|]. unfold np.transpose. rewrite HcB. split.
  - split; [rewrite length_fmap; by destruct HA|].
    apply Forall_fmap, Forall_forall. intros row _. simpl.
    by rewrite !length_fmap, length_seq.
  - apply list_fmap_ext. intros _ row _. by rewrite <- list_fmap_compose.
Qed.

(** [(A @ B).T] is [B.T @ A.T], when the products of entries commute. *)
Lemma transpose_matmul (m n k : nat) (A B AB : np.matrix F) :
  (∀ x y : F, fmul x y = fmul y x) →
  np.has_shape m n A → np.has_shape n k B →
  (0 < m)%nat → (0 < n)%nat → (0 < k)%nat →
  np.matmul A B = Ok AB →
  np.matmul (np.transpose B) (np.transpose A) = Ok (np.transpose AB).
Proof.
  intros Hcomm HA HB Hm Hn Hk HAB.
  destruct (matmul_has_shape m n k A B HA HB Hm Hn) as (AB' & HAB' & Hshape & Hentries).
  assert (AB' = AB) as -> by congruence.
  pose proof (transpose_has_shape _ _ _ HB Hn) as HBT.
  pose proof (transpose_has_shape _ _ _ HA Hm) as HAT.
  destruct (matmul_has_shape k n m _ _ HBT HAT Hk Hn) as (C & -> & _ & ->).
  f_equal. unfold np.transpose at 3.
  rewrite (has_shape_ncols _ _ _ Hshape Hm).
  pose proof (has_shape_ncols _ _ _ HB Hn) as HcB.
  unfold np.transpose at 2. rewrite HcB, <- list_fmap_compose.
  apply list_fmap_ext. intros j' j Hj. apply lookup_seq in Hj as [-> Hj]. simpl.
  destruct HA as [HlA HrowsA].
  apply list_eq. intros i. unfold np.column at 3.
  rewrite !list_lookup_fmap. destruct (decide (i < m)%nat) as [Hi|Hi].
  - rewrite lookup_seq_lt by done. simpl.
    destruct (lookup_lt_is_Some_2 A i) as [row Hrow]; [lia|].
    rewrite Hentries, list_lookup_fmap, Hrow. simpl. f_equal.
    rewrite nth_lookup, list_lookup_fmap, lookup_seq_lt by done. simpl.
    rewrite dot_comm by done. f_equal.
    assert (length row = n) as Hlrow by (by eapply (proj1 (Forall_lookup _ _) HrowsA)).
    apply list_eq. intros l. unfold np.column at 1.
    rewrite list_lookup_fmap. destruct (decide (l < n)%nat) as [Hl|Hl].
    + rewrite lookup_transpose by (rewrite (has_shape_ncols m n A); [done|split|]; done).
      simpl. rewrite (nth_column i l A row Hrow), nth_lookup.
      destruct (lookup_lt_is_Some_2 row l) as [x ->]; [lia|]. done.
    + rewrite (lookup_ge_None_2 row l) by lia.
      rewrite (lookup_ge_None_2 (np.transpose A) l); [done|].
      rewrite length_transpose, (has_shape_ncols m n A); [lia|split|]; done.
  - rewrite (lookup_ge_None_2 (seq 0 m) i) by (rewrite length_seq; lia).
    rewrite (lookup_ge_None_2 _ i); [done|].
    rewrite Hentries, length_fmap. lia.
Qed.

End transpose_facts.

(** ** The arithmetic of the examples *)

Section rational_facts.
Import Rational.

Lemma xmul_comm (a b : xq) : xmul a b = xmul b a.
Proof. destruct a, b; simpl; try done. f_equal. apply Qcmult_comm. Qed.

Lemma xadd_0_l (a : xq) : xadd (Fin 0%Qc) a = a.
Proof. destruct a; simpl; try done. f_equal. apply Qcplus_0_l. Qed.

Lemma xmul_1_l (a : xq) : xmul (Fin 1%Qc) a = a.
Proof. destruct a; simpl; try done. f_equal. apply Qcmult_1_l. Qed.

Lemma xdiv_0_not_finite (a : xq) : xfinite (xdiv a (Fin 0%Qc)) = false.
Proof.
  destruct a as [q| | |]; simpl; try done.
  change (0 ?= 0)%Qc with Eq. by destruct (q ?= 0)%Qc.
Qed.

End rational_facts.

(** ** Rotation mode 2 in the two engines *)

Section derived_singular_values.
Context {F : Type} {SF : Scalar F} {CF : Collaborators F}.
Import bootstrap_permutation._ResampleTestTaskPLS.

Lemma ncols_power2 (M : np.matrix F) : np.ncols (np.power2 M) = np.ncols M.
Proof. destruct M; simpl; [done|]. by rewrite length_fmap. Qed.

Lemma length_column_norms (M : np.matrix F) : length (np.column_norms M) = np.ncols M.
Proof.
  unfold np.column_norms, np.sqrt, np.sum_axis0.
  by rewrite !length_fmap, length_seq, ncols_power2.
Qed.

(** Rotation mode 2 on every input.  For [permuted] of shape (m, n) and [V]
    of shape (n, k), none of them zero, and with a commutative product of
    entries: in
    rotation mode 2 the permutation engine derives the norms of the k
    columns of [permuted @ V], and the bootstrap engine the norms of the m
    columns of [V.T @ permuted.T], which is the transpose of [permuted @ V];
    its values are the norms of the rows of [permuted @ V]. *)
Theorem rotation_mode_2_bootstrap_uses_the_transpose
    (m n k : nat) (permuted V : np.matrix F) :
  (∀ x y : F, fmul x y = fmul y x) →
  np.has_shape m n permuted → np.has_shape n k V →
  (0 < m)%nat → (0 < n)%nat → (0 < k)%nat →
  ∃ US_hat,
    np.matmul permuted V = Ok US_hat ∧
    np.matmul (np.transpose V) (np.transpose permuted) = Ok (np.transpose US_hat) ∧
    permutation_s_derived permuted V = Ok (np.column_norms US_hat) ∧
    bootstrap_s_derived permuted V = Ok (np.column_norms (np.transpose US_hat)) ∧
    length (np.column_norms US_hat) = k ∧
    length (np.column_norms (np.transpose US_hat)) = m.
Proof.
  intros Hcomm HP HV Hm Hn Hk.
  destruct (matmul_has_shape m n k permuted V HP HV Hm Hn) as (US_hat & HUS & Hshape & _).
  pose proof (transpose_matmul m n k permuted V US_hat Hcomm HP HV Hm Hn Hk HUS) as HT.
  exists US_hat.
  unfold permutation_s_derived, bootstrap_s_derived, bootstrap_derived.
  rewrite HUS, HT. repeat split; [|].
  - by rewrite length_column_norms, (has_shape_ncols _ _ _ Hshape Hm).
  - rewrite length_column_norms.
    apply (has_shape_ncols k m); [|done]. by apply transpose_has_shape.
Qed.

Lemma length_matmul (A B AB : np.matrix F) :
  np.matmul A B = Ok AB → length AB = length A.
Proof.
  unfold np.matmul. destruct (decide _); [|done]. intros [= <-].
  by rewrite length_fmap.
Qed.

(** In rotation mode 1 the permutation engine rotates by [U_bar @ V.T] and
    takes the column norms of the transpose of the projected matrix, one
    value per row of it. *)
Lemma permutation_s_rot_takes_row_norms (permuted V : np.matrix F) (s_hat : np.vec F) :
  permutation_s_rot permuted V = Ok s_hat →
  ∃ rot V_rot permuted_rot,
    permutation_rot V (linalg_svd permuted).2 = Ok rot ∧
    np.matmul (linalg_svd permuted).2 rot = Ok V_rot ∧
    np.matmul permuted V_rot = Ok permuted_rot ∧
    s_hat = np.column_norms (np.transpose permuted_rot) ∧
    length permuted_rot = length permuted.
Proof.
  unfold permutation_s_rot. destruct (linalg_svd permuted) as [[U_hat s] V_hat]. simpl.
  destruct (permutation_rot V V_hat) as [rot|] eqn:Hrot; [|done]. simpl.
  destruct (np.matmul V_hat rot) as [V_rot|] eqn:HV; [|done]. simpl.
  destruct (np.matmul permuted V_rot) as [permuted_rot|] eqn:Hp; [|done]. simpl.
  intros [= <-]. exists rot, V_rot, permuted_rot.
  repeat split; [done..|]. by eapply length_matmul.
Qed.

End derived_singular_values.

(** ** The preprocessing of the driver *)

Section mean_centering.
Context {F : Type} {SF : Scalar F} {CF : Collaborators F}.
Import pls_classes._MeanCenterTaskSingleGroupPLS.

Lemma fmap_nth_seq (v : np.vec F) : (λ j, nth j v fzero) <$> seq 0 (length v) = v.
Proof.
  apply list_eq. intros j. rewrite list_lookup_fmap.
  destruct (decide (j < length v)%nat) as [Hj|Hj].
  - rewrite lookup_seq_lt by done. simpl. rewrite nth_lookup.
    destruct (lookup_lt_is_Some_2 v j Hj) as [x ->]. done.
  - rewrite (lookup_ge_None_2 v) by lia.
    by rewrite (lookup_ge_None_2 (seq 0 _)) by (rewrite length_seq; lia).
Qed.

(** [np.dot(np.ones((m, 1)), v.reshape((1, n)))] is [m] copies of [v]. *)
Lemma ones_matmul_row (m : nat) (v : np.vec F) :
  (∀ x : F, fadd fzero x = x) → (∀ x : F, fmul fone x = x) → (0 < m)%nat →
  np.matmul (np.ones m 1) (np.reshape_row v) = Ok (replicate m v).
Proof.
  intros Hadd Hmul Hm. unfold np.matmul, np.ones, np.reshape_row.
  destruct m as [|m]; [lia|]. rewrite decide_True by done. f_equal.
  rewrite fmap_replicate. f_equal. unfold np.transpose. simpl.
  rewrite <- list_fmap_compose. rewrite <- (fmap_nth_seq v) at 2.
  apply list_fmap_ext. intros _ j _. simpl.
  unfold np.dot, np.sum. simpl. by rewrite Hmul, Hadd.
Qed.

Lemma zip_with_replicate_row (op : F → F → F) (X : np.matrix F) (v : np.vec F) :
  zip_with (zip_with op) X (replicate (length X) v)
  = (λ row : np.vec F, zip_with op row v) <$> X.
Proof. induction X as [|row X IH]; simpl; [done|]. by rewrite IH. Qed.

Lemma concat_power2 (M : np.matrix F) :
  concat (np.power2 M) = (λ x, fmul x x) <$> concat M.
Proof.
  unfold np.power2. induction M as [|row M IH]; csimpl; [done|].
  by rewrite fmap_app, IH.
Qed.

(** C10.  For a non-empty array [X] of shape (m, n), in an arithmetic where
    0 + x = x and 1 * x = x, [_mean_center(X, ngroups=1)] returns the pair of
    [X] minus the row-wise broadcast of its column means and of that centered
    matrix divided by its Frobenius norm; the matrix the driver then
    decomposes is the second one. *)
Theorem mean_center_centers_and_rescales (m n : nat) (X : np.matrix F) :
  (∀ x : F, fadd fzero x = x) → (∀ x : F, fmul fone x = x) →
  np.has_shape m n X → (0 < m)%nat →
  _mean_center X 1
    = Ok (claimed.centered X, claimed.unit_frobenius (claimed.centered X)) ∧
  ('(X_means, X_mc) ← _mean_center X 1; _run_pls X_mc 1)
    = Ok (gsvd (claimed.unit_frobenius (claimed.centered X))).
Proof.
  intros Hadd Hmul HX Hm.
  assert (_mean_center X 1
    = Ok (claimed.centered X, claimed.unit_frobenius (claimed.centered X))) as Hmc.
  { unfold _mean_center. rewrite decide_True by done.
    pose proof HX as [Hlen Hrows]. unfold np.nrows. rewrite Hlen.
    rewrite ones_matmul_row by done. cbn [mbind res_bind].
    unfold np.subtract. rewrite (broadcast2_same_shape fsub m n).
    - cbn [mbind res_bind mret res_ret]. rewrite <- Hlen, zip_with_replicate_row.
      unfold np.div_scalar, np.linalg_norm. rewrite concat_power2. done.
    - done.
    - split; [by rewrite length_replicate|]. apply Forall_replicate.
      unfold np.mean_axis0. rewrite length_fmap, length_seq.
      by apply (has_shape_ncols m n). }
  split; [done|]. rewrite Hmc. cbn [mbind res_bind].
  unfold _run_pls. by rewrite decide_True.
Qed.

End mean_centering.

(** ** The default condition order *)

Section cond_order_facts.
Import pls_classes._MeanCenterTaskSingleGroupPLS.

(** The inner loop extends the one object [group_list] and appends one more
    reference to it in every round. *)
Lemma _get_cond_order_inner_loop (n : Z) (a : nat) (ks : list Z)
    (st : list_of_lists) (l : list Z) :
  store st !! a = Some l →
  foldl (_get_cond_order_inner n a) st ks
  = {| store := <[a := l ++ (ks ≫= λ k, replicate (Z.to_nat n) k)]> (store st);
       refs := refs st ++ replicate (length ks) a |}.
Proof.
  revert st l. induction ks as [|k ks IH]; intros [h r] l Hl; simpl in *.
  - rewrite !app_nil_r. by rewrite list_insert_id.
  - erewrite IH; [|simpl; by rewrite list_lookup_alter_eq, Hl]. simpl. f_equal.
    + rewrite <- (assoc_L (++)).
      apply list_eq. intros i. destruct (decide (i = a)) as [->|Hne].
      * assert (a < length h)%nat by (by eapply lookup_lt_Some).
        rewrite !list_lookup_insert_eq; [done|done|by rewrite length_alter].
      * rewrite !list_lookup_insert_ne by done. by rewrite list_lookup_alter_ne.
    + rewrite <- (assoc_L (++)). done.
Qed.

Lemma view_app_new (h : list (list Z)) (r : list nat) (l : list Z) (c : nat) :
  Forall (λ a, a < length h)%nat r →
  view {| store := <[length h := l]> (h ++ [[]]);
          refs := r ++ replicate c (length h) |}
  = view {| store := h; refs := r |} ++ replicate c l.
Proof.
  intros Hr. unfold view. simpl. rewrite fmap_app, fmap_replicate. f_equal.
  - apply Forall_fmap_ext_1. eapply Forall_impl; [exact Hr|]. simpl. intros a Ha.
    rewrite list_lookup_insert_ne by lia. by rewrite lookup_app_l.
  - f_equal. rewrite list_lookup_insert_eq; [done|].
    rewrite length_app. simpl. lia.
Qed.

(** What the two loops build: for each group, [num_conditions] references to
    the one list of that group. *)
Lemma _get_cond_order_value (groups_tuple : list Z) (num_conditions : Z) :
  _get_cond_order groups_tuple num_conditions
  = groups_tuple ≫= λ n,
      replicate (Z.to_nat num_conditions) (claimed.group_labels n num_conditions).
Proof.
  unfold _get_cond_order, _get_cond_order_objects.
  assert (∀ gs st,
    Forall (λ a, a < length (store st))%nat (refs st) →
    view (foldl (_get_cond_order_outer num_conditions) st gs)
    = view st ++ (gs ≫= λ n,
        replicate (Z.to_nat num_conditions) (claimed.group_labels n num_conditions)))
    as Hloop.
  { induction gs as [|n gs IH]; intros [h r] Hr; simpl in *.
    - by rewrite app_nil_r.
    - unfold _get_cond_order_outer at 2. simpl.
      erewrite _get_cond_order_inner_loop;
        [|simpl; apply list_lookup_middle; done]. simpl.
      rewrite IH; simpl.
      + rewrite view_app_new by done. rewrite <- (assoc_L (++)). do 3 f_equal.
        unfold range. by rewrite length_fmap, length_seq.
      + rewrite length_insert, length_app. simpl.
        apply Forall_app. split.
        * eapply Forall_impl; [exact Hr|]. simpl. lia.
        * apply Forall_replicate. lia. }
  rewrite Hloop by done. done.
Qed.

(** The number of entries of the default condition order and the length of
    each. *)
Lemma _get_cond_order_lengths (groups_tuple : list Z) (num_conditions : Z) :
  (∀ n, n ∈ groups_tuple → 0 ≤ n) → 0 ≤ num_conditions →
  Z.of_nat (length (_get_cond_order groups_tuple num_conditions))
    = Z.of_nat (length groups_tuple) * num_conditions ∧
  Forall (λ group, ∃ n, n ∈ groups_tuple ∧
                        Z.of_nat (length group) = n * num_conditions)
         (_get_cond_order groups_tuple num_conditions).
Proof.
  intros Hgs Hnc. rewrite _get_cond_order_value.
  assert (∀ n, 0 ≤ n →
    Z.of_nat (length (claimed.group_labels n num_conditions)) = n * num_conditions) as Hgl.
  { intros n Hn. unfold claimed.group_labels, range.
    generalize 0%nat. induction (Z.to_nat num_conditions) as [|c IH] eqn:Hc
      in num_conditions, Hnc |- *; intros j.
    - simpl. lia.
    - simpl. rewrite length_app, length_replicate, Nat2Z.inj_add.
      rewrite (IH (num_conditions - 1)) by lia. lia. }
  split.
  - clear Hgs Hgl. induction groups_tuple as [|n gs IH]; [simpl; lia|].
    rewrite bind_cons, length_app, length_replicate, Nat2Z.inj_add, IH.
    simpl length. lia.
  - apply Forall_forall. intros group Hin.
    apply list_elem_of_bind in Hin as (n & Hin & Hn).
    apply elem_of_replicate in Hin as [-> _]. exists n. split; [done|].
    apply Hgl, Hgs, Hn.
Qed.

(** C9, at a failing input.  For one group of three participants and two
    conditions the default condition order has two entries, not one: the
    list of the group is appended once per condition, and both entries are
    that one list of six labels; the row counts of the entries sum to 12,
    whereas [X] has 6 rows. *)
Theorem default_cond_order_repeats_each_group :
  _get_cond_order [3] 2 = [[0; 0; 0; 1; 1; 1]; [0; 0; 0; 1; 1; 1]] ∧
  claimed.default_cond_order [3] 2 = [[0; 0; 0; 1; 1; 1]] ∧
  refs (_get_cond_order_objects [3] 2) = [0; 0]%nat ∧
  length (_get_cond_order [3] 2) ≠ length [3] ∧
  foldr (λ group rows, Z.of_nat (length group) + rows) 0 (_get_cond_order [3] 2) = 12.
Proof. repeat split; by vm_compute. Qed.

End cond_order_facts.

(** ** The call of the driver to the resampling tests *)

Section driver_call.
Context {F : Type} {SF : Scalar F} {CF : Collaborators F}.
Import pls_classes._MeanCenterTaskSingleGroupPLS.

(** The module defines [_ResampleTestTaskPLS]; the name the driver asks for
    is not one of its attributes. *)
Lemma getattr_ResampleTestTaskPLS :
  bootstrap_permutation.getattr "ResampleTestTaskPLS" = Err AttributeError ∧
  bootstrap_permutation.getattr "_ResampleTestTaskPLS"
    = Ok bootstrap_permutation.class__ResampleTestTaskPLS.
Proof. split; by vm_compute. Qed.

(** The arguments of the driver do not fit the class under its real name
    either: three positional arguments for the six required parameters
    [X, Y, U, s, V, cond_order], and a keyword [nonrotated] that is not a
    parameter. *)
Lemma driver_arguments_do_not_bind
    (X : np.matrix F) (s : np.vec F) (co : CondOrder) (num_perm num_boot num_groups : Z)
    (g : rng) :
  bootstrap_permutation.call bootstrap_permutation.class__ResampleTestTaskPLS
    (resample_tests_args X s co) (resample_tests_kwargs num_perm num_boot num_groups) g
  = Err TypeError.
Proof. by vm_compute. Qed.

(** Without the misplaced keyword the call still fails: [s] would be bound
    to [Y], the condition order to [U], and [s], [V], [cond_order] are
    missing. *)
Lemma driver_positionals_do_not_bind (X : np.matrix F) (s : np.vec F) (co : CondOrder) :
  bootstrap_permutation.bind_arguments bootstrap_permutation.__init___signature
    (resample_tests_args X s co) []
  = Err TypeError.
Proof. by vm_compute. Qed.

(** No call of the constructor of the driver returns an instance. *)
Lemma driver_init_always_raises
    X Y groups_sizes num_conditions cond_order num_perm num_boot g :
  ∃ e, __init__ X Y groups_sizes num_conditions cond_order num_perm num_boot g = Err e.
Proof.
  unfold __init__. destruct Y; [by eauto|].
  destruct (_get_groups_info groups_sizes) as [gs ng].
  destruct (_mean_center X ng) as [[X_means X_mc]|e]; [|by eauto].
  cbn [mbind res_bind].
  destruct (_run_pls X_mc ng) as [[[U s] V]|e]; [|by eauto]. cbn [mbind res_bind].
  destruct (_compute_latents X_mc V 1) as [X_latent|e]; [|by eauto].
  cbn [mbind res_bind]. rewrite (proj1 getattr_ResampleTestTaskPLS). by eauto.
Qed.

(** On a single-group input that gets as far as the call, the exception is
    the AttributeError of the lookup of the class. *)
Lemma driver_init_raises_AttributeError
    X (groups_sizes : list Z) num_conditions cond_order num_perm num_boot g
    X_means X_mc X_latent :
  length groups_sizes = 1%nat →
  _mean_center X 1 = Ok (X_means, X_mc) →
  _compute_latents X_mc (gsvd X_mc).2 1 = Ok X_latent →
  __init__ X None (Some groups_sizes) num_conditions cond_order num_perm num_boot g
  = Err AttributeError.
Proof.
  intros Hgs Hmc Hlat. unfold __init__, _get_groups_info. rewrite Hgs.
  change (Z.of_nat 1) with 1. rewrite Hmc. cbn [mbind res_bind]. unfold _run_pls. rewrite decide_True by done.
  cbn [mbind res_bind mret res_ret].
  destruct (gsvd X_mc) as [[U s] V]. simpl in Hlat. rewrite Hlat. done.
Qed.

End driver_call.

(** ** The examples *)

Section examples.
Import Rational.
Import bootstrap_permutation._ResampleTestTaskPLS.

(** C2, at a failing input.  The driver is constructed on four rows of one
    variable, one group of four participants and one condition.  The
    constructor raises AttributeError at [bootstrap_permutation
    .ResampleTestTaskPLS], so no instance and no result bundle exist; the
    arguments it has ready are [X], [s] and the condition order alone,
    without [Y], [U] and [V], and under the real name of the class they
    raise TypeError. *)
Theorem driver_does_not_run_the_resample_tests :
  pls_classes._MeanCenterTaskSingleGroupPLS.__init__
    (of_Zs [[2]; [2]; [0]; [0]]) None (Some [4]) 1 None 1000 1000 0%nat
  = Err AttributeError ∧
  (∀ (X : np.matrix xq) (s : np.vec xq) (co : CondOrder),
     pls_classes._MeanCenterTaskSingleGroupPLS.resample_tests_args X s co
     = [bootstrap_permutation.PyMatrix X; bootstrap_permutation.PyVector s;
        bootstrap_permutation.PyCondOrder co]) ∧
  (∀ (X : np.matrix xq) (s : np.vec xq) (co : CondOrder) (g : nat),
     bootstrap_permutation.call bootstrap_permutation.class__ResampleTestTaskPLS
       (pls_classes._MeanCenterTaskSingleGroupPLS.resample_tests_args X s co)
       (pls_classes._MeanCenterTaskSingleGroupPLS.resample_tests_kwargs 1000 1000 1) g
     = Err TypeError).
Proof.
  split; [by vm_compute|]. split; [done|].
  intros. apply driver_arguments_do_not_bind.
Qed.

(** C3, at a failing input.  Two rows, generator in state 0.  In the
    permutation engine [X] keeps its row order (rows 0, 1) while [Y] comes
    back as rows 1, 0; in the bootstrap engine [X] is rows 0, 1 and [Y] is
    row 0 twice.  Each matrix is resampled by a call of its own, the one for
    [Y] on the generator state the call for [X] has left, and no indices
    pass from one to the other. *)
Theorem Y_is_resampled_by_a_call_of_its_own :
  resampled_pair resample_without_replacement 0%nat
    (of_Zs [[1; 2]; [3; 4]]) (Some (of_Zs [[10]; [20]])) [[0; 1]]
  = (take_rows [0; 1]%nat (of_Zs [[1; 2]; [3; 4]]),
     Some (take_rows [1; 0]%nat (of_Zs [[10]; [20]])), 2%nat) ∧
  resampled_pair resample_with_replacement 0%nat
    (of_Zs [[1; 2]; [3; 4]]) (Some (of_Zs [[10]; [20]])) [[0; 1]]
  = (take_rows [0; 1]%nat (of_Zs [[1; 2]; [3; 4]]),
     Some (take_rows [0; 0]%nat (of_Zs [[10]; [20]])), 2%nat).
Proof. split; by_evaluation. Qed.

(** C4, at a failing input.  Two bootstrap rounds in rotation mode 2 with
    [dist = (0.5, 0.5)]: the lower and the upper bound differ, they are the
    quantiles at the bounds [resample.confidence_interval] has of its own
    (here 0.05 and 0.95); and the result is the same for every [dist]. *)
Theorem bootstrap_interval_does_not_follow_dist :
  let test dist :=
    _bootstrap_test (of_Zs [[3; 4]; [0; 5]]) None (of_Zs [[1; 0]; [0; 1]])
      [of_Q 5; of_Q 5] (of_Zs [[1; 0]; [0; 1]]) [[0; 1]] 1 2 (Some pass_through) 2
      dist 0%nat in
  match test (of_Q (1 # 2), of_Q (1 # 2)) with
  | Returned ((lower, upper), _, _) st =>
      show <$> written (left_sv_sampled st)
        = [ [[Some (3 # 5); Some 0%Q]; [Some (4 # 5); Some 1%Q]];
            [[Some (3 # 5); Some (3 # 5)]; [Some (4 # 5); Some (4 # 5)]] ] ∧
      show lower = [[Some (3 # 5); Some (3 # 100)]; [Some (4 # 5); Some (81 # 100)]] ∧
      show upper = [[Some (3 # 5); Some (57 # 100)]; [Some (4 # 5); Some (99 # 100)]] ∧
      lower ≠ upper
  | Raised _ _ => False
  end ∧
  ∀ dist, test dist = test (of_Q (1 # 2), of_Q (1 # 2)).
Proof.
  split; [|done]. vm_compute. repeat split; [].
  intros Heq. apply (f_equal show) in Heq. vm_compute in Heq. discriminate.
Qed.

(** The two derivations of rotation mode 2 are not one function on the
    references with orthonormal columns: with [V] the 2 x 2 identity and
    [permuted] the rows (3, 0) and (4, 0), the permutation engine derives
    (5, 0) and the bootstrap engine (3, 4). *)
Lemma rotation_mode_2_engines_disagree :
  ¬ (∀ permuted V : np.matrix xq,
       claimed.orthonormal_columns V →
       permutation_s_derived permuted V = bootstrap_s_derived permuted V).
Proof.
  intros Hclaim.
  specialize (Hclaim (of_Zs [[3; 0]; [4; 0]]) (of_Zs [[1; 0]; [0; 1]])).
  assert (permutation_s_derived (of_Zs [[3; 0]; [4; 0]]) (of_Zs [[1; 0]; [0; 1]])
          = Ok [of_Q 5; of_Q 0]) as Hp by by_evaluation.
  assert (bootstrap_s_derived (of_Zs [[3; 0]; [4; 0]]) (of_Zs [[1; 0]; [0; 1]])
          = Ok [of_Q 3; of_Q 4]) as Hb by by_evaluation.
  rewrite Hp, Hb in Hclaim.
  assert (Ok [of_Q 5; of_Q 0] = Ok [of_Q 3; of_Q 4]) as Heq.
  { apply Hclaim. unfold claimed.orthonormal_columns. by_evaluation. }
  apply (bool_decide_pack _) in Heq. vm_compute in Heq. exact Heq.
Qed.

(** C7, at two failing inputs.  The reference [V] is the 2 x 2 identity,
    whose columns are orthonormal.
    - On the rows (3, 0) and (4, 0) the permutation engine derives (5, 0),
      the norms of the two columns of [permuted @ V]; the bootstrap engine
      derives (3, 4), the norms of its two rows: not the same vector.
    - On the three rows (3, 0), (4, 0) and (0, 5) the permutation engine
      derives two values, (5, 5), one per column of [V]; the bootstrap engine
      derives three, (3, 4, 5), one per row of [permuted], and its round then
      raises ValueError at [np.linalg.inv(np.diag(s_hat)) @ (U.T @ permuted)],
      a product of a 3 x 3 and a 2 x 2 matrix. *)
Theorem rotation_mode_2_bootstrap_takes_row_norms :
  let I2 := of_Zs [[1; 0]; [0; 1]] in
  (claimed.orthonormal_columns I2 ∧
   permutation_s_derived (of_Zs [[3; 0]; [4; 0]]) I2 = Ok [of_Q 5; of_Q 0] ∧
   bootstrap_s_derived (of_Zs [[3; 0]; [4; 0]]) I2 = Ok [of_Q 3; of_Q 4]) ∧
  (permutation_s_derived (of_Zs [[3; 0]; [4; 0]; [0; 5]]) I2 = Ok [of_Q 5; of_Q 5] ∧
   bootstrap_s_derived (of_Zs [[3; 0]; [4; 0]; [0; 5]]) I2
     = Ok [of_Q 3; of_Q 4; of_Q 5] ∧
   bootstrap_vectors (CF := examples) 2 (of_Zs [[3; 0]; [4; 0]; [0; 5]])
     (of_Zs [[1; 0]; [0; 1]; [0; 0]]) I2 = Err ValueError).
Proof.
  intros I2. subst I2. unfold claimed.orthonormal_columns.
  repeat split; by_evaluation.
Qed.


(** C8, at two failing inputs.  The decompositions used are
    [[2, 0], [0, 1], [0, 0]] = E diag(2, 1) I, I = I diag(1, 1) I,
    [[0, 2], [1, 0]] = I diag(2, 1) P and P = I diag(1, 1) P, with P the
    exchange matrix and E the first two columns of the 3 x 3 identity.
    - On the matrix of three rows and two columns the code derives three
      values, the norms of the rows of the projected matrix, where the
      column norms are two; the test then raises ValueError at
      [greatersum += s_hat >= s].
    - With the reference [V = I] and [V_hat = P], the matrix the code applies
      is [U_bar @ V.T = I], and the Procrustes rotation [U_bar @ V_bar] is P;
      on [[0, 2], [1, 0]] the code derives (2, 1) where the rotation and the
      column norms of the specification give (1, 2). *)
Theorem rotation_mode_1_is_not_procrustes_with_column_norms :
  let I2 := of_Zs [[1; 0]; [0; 1]] in
  let P2 := of_Zs [[0; 1]; [1; 0]] in
  (permutation_s_rot (of_Zs [[2; 0]; [0; 1]; [0; 0]]) I2 = Ok [of_Q 2; of_Q 1; of_Q 0] ∧
   claimed.rotated_singular_values (of_Zs [[2; 0]; [0; 1]; [0; 0]]) I2
     = Ok [of_Q 2; of_Q 1] ∧
   ∃ st, _permutation_test (of_Zs [[2; 0]; [0; 1]; [0; 0]]) None [] [of_Q 2; of_Q 1] I2
           [[0; 1; 2]] 1 1 (Some pass_through) 1 0%nat
         = Raised ValueError st) ∧
  (permutation_rot I2 P2 = Ok I2 ∧
   claimed.procrustes_rotation I2 P2 = Ok P2 ∧
   np.transpose P2 = P2 ∧ I2 ≠ P2) ∧
  (permutation_s_rot (of_Zs [[0; 2]; [1; 0]]) I2 = Ok [of_Q 2; of_Q 1] ∧
   claimed.rotated_singular_values (of_Zs [[0; 2]; [1; 0]]) I2 = Ok [of_Q 1; of_Q 2]).
Proof.
  intros I2 P2. subst I2 P2.
  repeat split; try by_evaluation.
  eexists. vm_compute. reflexivity.
Qed.

End examples.

(** ** The collaborators of the examples *)

Section example_collaborators.
Import Rational.

(** Every entry of the table is a singular value decomposition of its
    matrix: [U diag(s) Vh] is the matrix, the columns of [U] and the rows of
    [Vh] are orthonormal. *)
Lemma svd_table_decomposes :
  Forall (λ e : np.matrix xq * (np.matrix xq * np.vec xq * np.matrix xq),
            (US ← np.matmul e.2.1.1 (np.diag e.2.1.2); np.matmul US e.2.2) = Ok e.1 ∧
            claimed.orthonormal_columns e.2.1.1 ∧
            claimed.orthonormal_columns (np.transpose e.2.2))
         svd_table.
Proof.
  unfold svd_table, claimed.orthonormal_columns.
  repeat constructor; by_evaluation.
Qed.

(** On two rows the generator of the examples yields one of two orders. *)
Lemma permutation_indices_2 (g : nat) :
  permutation_indices g 2 = [0; 1]%nat ∨ permutation_indices g 2 = [1; 0]%nat.
Proof.
  unfold permutation_indices. change (seq 0 2) with [0; 1]%nat. cbn [fmap list_fmap].
  destruct (Nat.Even_or_Odd g) as [[k ->]|[k ->]]; [left|right].
  - replace (0 + 2 * k)%nat with (0 + k * 2)%nat by lia.
    replace (1 + 2 * k)%nat with (1 + k * 2)%nat by lia.
    by rewrite !Nat.Div0.mod_add.
  - replace (0 + (2 * k + 1))%nat with (1 + k * 2)%nat by lia.
    replace (1 + (2 * k + 1))%nat with (0 + (k + 1) * 2)%nat by lia.
    by rewrite !Nat.Div0.mod_add.
Qed.

Lemma bootstrap_indices_2 (g : nat) :
  bootstrap_indices g 2 = [0; 1]%nat ∨ bootstrap_indices g 2 = [0; 0]%nat.
Proof.
  unfold bootstrap_indices. change (seq 0 2) with [0; 1]%nat. cbn [fmap list_fmap].
  destruct (Nat.Even_or_Odd g) as [[k ->]|[k ->]]; [left|right].
  - replace (0 * (2 * k + 1))%nat with (0 + 0 * 2)%nat by lia.
    replace (1 * (2 * k + 1))%nat with (1 + k * 2)%nat by lia.
    by rewrite !Nat.Div0.mod_add.
  - replace (0 * (2 * k + 1 + 1))%nat with (0 + 0 * 2)%nat by lia.
    replace (1 * (2 * k + 1 + 1))%nat with (0 + (k + 1) * 2)%nat by lia.
    by rewrite !Nat.Div0.mod_add.
Qed.

End example_collaborators.

(** ** The general theorems at an input *)

Section instances_of_the_theorems.
Import Rational.
Import bootstrap_permutation._ResampleTestTaskPLS.


(** C5 at rotation mode 3 and two iterations. *)
Lemma unsupported_rotation_example :
  (∃ st, _permutation_test (of_Zs [[0; 2]; [1; 0]]) None [] [of_Q 2; of_Q 1]
           (of_Zs [[1; 0]; [0; 1]]) [[0; 1]] 1 2 (Some pass_through) 3 0%nat
           = Raised NotImplementedError st ∧
         greatersum st = np.zeros (length [of_Q 2; of_Q 1])) ∧
  (∃ st, _bootstrap_test (of_Zs [[0; 2]; [1; 0]]) None [] [of_Q 2; of_Q 1]
           (of_Zs [[1; 0]; [0; 1]]) [[0; 1]] 1 2 (Some pass_through) 3
           (of_Q (5 # 100), of_Q (95 # 100)) 0%nat
           = Raised NotImplementedError st ∧
         left_sv_sampled st = replicate 2 None ∧
         right_sv_sampled st = replicate 2 None).
Proof.
  apply (unsupported_rotation_raises_before_any_update (CF := examples) (of_Zs [[0; 2]; [1; 0]]) None []
           [of_Q 2; of_Q 1] (of_Zs [[1; 0]; [0; 1]]) [[0; 1]] 1 2 pass_through 3
           (of_Q (5 # 100), of_Q (95 # 100)) 0%nat).
  - lia.
  - lia.
  - lia.
  - lia.
  - intros X_new Y_new. exists X_new. reflexivity.
Defined.

(** C6 at two rows and two variables, the reference [V] the identity, whose
    two zeros give ratios that are not finite. *)
Lemma bootstrap_ratios_example :
  ∃ ci se br st,
    _bootstrap_test (of_Zs [[3; 4]; [0; 5]]) None (of_Zs [[1; 0]; [0; 1]])
      [of_Q 5; of_Q 5] (of_Zs [[1; 0]; [0; 1]]) [[0; 1]] 1 2 (Some pass_through) 2
      (of_Q (5 # 100), of_Q (95 # 100)) 0%nat
      = Returned (ci, se, br) st ∧
    se = scipy_stats.sem 2 2 (written (right_sv_sampled st)) ∧
    np.divide se (of_Zs [[1; 0]; [0; 1]]) = Ok br ∧
    (∀ i j row v, of_Zs [[1; 0]; [0; 1]] !! i = Some row → row !! j = Some v →
       ∃ se_row e br_row x,
         se !! i = Some se_row ∧ se_row !! j = Some e ∧
         br !! i = Some br_row ∧ br_row !! j = Some x ∧
         x = xdiv e v ∧
         (v = Fin 0%Qc → xfinite x = false)).
Proof.
  refine (bootstrap_ratios_are_std_errs_over_V (CF := examples) (of_Zs [[3; 4]; [0; 5]]) None
            (of_Zs [[1; 0]; [0; 1]]) [of_Q 5; of_Q 5] (of_Zs [[1; 0]; [0; 1]]) [[0; 1]]
            1 2 (Some pass_through) 2 (of_Q (5 # 100), of_Q (95 # 100)) 0%nat 2 2 _ _ _).
  - split; [reflexivity|]. repeat constructor.
  - exact xdiv_0_not_finite.
  - intros g'. unfold bootstrap_round_vectors, resampled_pair.
    change (resample_with_replacement g' (of_Zs [[3; 4]; [0; 5]]) [[0; 1]])
      with (take_rows (bootstrap_indices g' 2) (of_Zs [[3; 4]; [0; 5]]), S g').
    destruct (bootstrap_indices_2 g') as [-> | ->].
    + exists [[of_Q (3 # 5); of_Q 0]; [of_Q (4 # 5); of_Q 1]],
             [[of_Q (3 # 5); of_Q 0]; [of_Q (4 # 5); of_Q 1]],
             [[of_Q (3 # 5); of_Q 0]; [of_Q (4 # 5); of_Q 1]],
             [[of_Q (3 # 5); of_Q 0]; [of_Q (4 # 5); of_Q 1]].
      repeat split; by_evaluation.
    + exists [[of_Q (3 # 5); of_Q (3 # 5)]; [of_Q (4 # 5); of_Q (4 # 5)]],
             [[of_Q (3 # 5); of_Q (3 # 5)]; [of_Q (4 # 5); of_Q (4 # 5)]],
             [[of_Q (3 # 5); of_Q (3 # 5)]; [of_Q (4 # 5); of_Q (4 # 5)]],
             [[of_Q (3 # 5); of_Q (3 # 5)]; [of_Q (4 # 5); of_Q (4 # 5)]].
      repeat split; by_evaluation.
Defined.

(** The statement on rotation mode 2 for every input, at the rows (3, 0)
    and (4, 0). *)
Lemma rotation_mode_2_example :
  ∃ US_hat,
    np.matmul (of_Zs [[3; 0]; [4; 0]]) (of_Zs [[1; 0]; [0; 1]]) = Ok US_hat ∧
    np.matmul (np.transpose (of_Zs [[1; 0]; [0; 1]])) (np.transpose (of_Zs [[3; 0]; [4; 0]]))
      = Ok (np.transpose US_hat) ∧
    permutation_s_derived (of_Zs [[3; 0]; [4; 0]]) (of_Zs [[1; 0]; [0; 1]])
      = Ok (np.column_norms US_hat) ∧
    bootstrap_s_derived (of_Zs [[3; 0]; [4; 0]]) (of_Zs [[1; 0]; [0; 1]])
      = Ok (np.column_norms (np.transpose US_hat)) ∧
    length (np.column_norms US_hat) = 2%nat ∧
    length (np.column_norms (np.transpose US_hat)) = 2%nat.
Proof.
  apply (rotation_mode_2_bootstrap_uses_the_transpose 2 2 2
           (of_Zs [[3; 0]; [4; 0]]) (of_Zs [[1; 0]; [0; 1]])).
  - exact xmul_comm.
  - split; [reflexivity|]. repeat constructor.
  - split; [reflexivity|]. repeat constructor.
  - lia.
  - lia.
  - lia.
Defined.

(** C10 at four rows of one variable. *)
Lemma mean_center_example :
  pls_classes._MeanCenterTaskSingleGroupPLS._mean_center (of_Zs [[2]; [2]; [0]; [0]]) 1
    = Ok (claimed.centered (of_Zs [[2]; [2]; [0]; [0]]),
          claimed.unit_frobenius (claimed.centered (of_Zs [[2]; [2]; [0]; [0]]))) ∧
  ('(X_means, X_mc) ←
      pls_classes._MeanCenterTaskSingleGroupPLS._mean_center (of_Zs [[2]; [2]; [0]; [0]]) 1;
    pls_classes._MeanCenterTaskSingleGroupPLS._run_pls X_mc 1)
    = Ok (gsvd (claimed.unit_frobenius (claimed.centered (of_Zs [[2]; [2]; [0]; [0]])))).
Proof.
  apply (mean_center_centers_and_rescales (CF := examples) 4 1 (of_Zs [[2]; [2]; [0]; [0]])).
  - exact xadd_0_l.
  - exact xmul_1_l.
  - split; [reflexivity|]. repeat constructor.
  - lia.
Defined.

End instances_of_the_theorems.

(** * Further properties of the code *)

(** ** The loop with its index *)

Lemma for_range_invariant {St : Type} (body : nat → St → exn * St + St)
    (P : nat → St → Prop) (n : nat) (st0 st : St) :
  (∀ i st1 st2, (i < n)%nat → P i st1 → body i st1 = inr st2 → P (S i) st2) →
  P 0%nat st0 → for_range n body st0 = inr st → P n st.
Proof.
  intros step. unfold for_range.
  assert (∀ m j st1, (j + m = n)%nat → P j st1 →
            for_each body (seq j m) st1 = inr st → P n st) as Hgen.
  { induction m as [|m IH]; intros j st1 Hjm HP Hrun; simpl in Hrun.
    - replace n with j by lia. congruence.
    - destruct (body j st1) as [e|st2] eqn:Hb; [done|].
      apply (IH (S j) st2); [lia| |done]. apply (step j st1); [lia|done..]. }
  intros HP Hrun. by apply (Hgen n 0%nat st0).
Qed.

(** ** More on the permutation test *)

Section permutation_extras.
Context {F : Type} {SF : Scalar F} {CF : Collaborators F}.
Import bootstrap_permutation._ResampleTestTaskPLS.

(** X1.  Whenever the permutation test returns after [niter >= 1] rounds,
    each entry of the ratio is [c / niter] for the whole number [c] that
    [greatersum] holds for it, with [0 <= c <= niter]; after a single round
    each entry is exactly 0 or exactly 1. *)
Theorem permutation_ratio_is_a_count_over_niter
    X Y U s V co ngroups niter preprocess rotate_method g ratio st :
  (1 ≤ niter)%nat →
  _permutation_test X Y U s V co ngroups niter preprocess rotate_method g
    = Returned ratio st →
  ratio = (λ c, Some (c # Pos.of_nat niter)) <$> greatersum st ∧
  Forall (λ c, 0 ≤ c ≤ Z.of_nat niter) (greatersum st) ∧
  (niter = 1%nat → Forall (λ r, r = Some (0 # 1) ∨ r = Some (1 # 1)) ratio).
Proof.
  intros Hn. unfold _permutation_test, for_range.
  destruct (for_each _ _ _) as [[e st1]|st1] eqn:Hloop; [done|]. intros [= <- <-].
  eapply (for_each_invariant _ (counts_upto s)) in Hloop as [Hlen Hrange];
    [| intros; by eapply permutation_round_counts | apply counts_upto_initial].
  rewrite length_seq in Hrange. simpl in Hrange.
  assert (np.true_divide_count niter <$> greatersum st1
          = (λ c, Some (c # Pos.of_nat niter)) <$> greatersum st1) as Hratio.
  { apply list_fmap_ext. intros _ c _. unfold np.true_divide_count.
    by rewrite decide_False by lia. }
  split; [done|]. split; [done|]. intros ->. rewrite Hratio.
  apply Forall_fmap. eapply Forall_impl; [exact Hrange|]. simpl. intros c Hc.
  assert (c = 0 ∨ c = 1) as [-> | ->] by lia; auto.
Qed.

(** X2.  With no iteration the permutation test returns at once: the
    generator is untouched, no resampling, preprocessing or check of the
    rotation mode takes place, and the ratio is one not-finite entry (0 / 0)
    per entry of [s].  This holds for every rotation mode, supported or not,
    and without a preprocessing function. *)
Theorem permutation_test_without_iterations
    X Y U s V co ngroups preprocess rotate_method g :
  _permutation_test X Y U s V co ngroups 0 preprocess rotate_method g
  = Returned (replicate (length s) None)
             {| perm_rng := g; greatersum := np.zeros (length s) |}.
Proof.
  unfold _permutation_test, for_range. simpl. f_equal.
  unfold np.zeros. by rewrite fmap_replicate.
Qed.

(** X4.  With [preprocess=None], the default of both tests and of the class,
    and at least one iteration, the first round raises TypeError at the call
    of [preprocess], before [greatersum] or a slot is written and before the
    rotation mode is looked at; so the class built without a preprocessing
    function raises TypeError as soon as [nperm >= 1]. *)
Theorem missing_preprocess_raises_TypeError
    X Y U s V co ngroups niter nboot rotate_method dist g :
  (1 ≤ niter)%nat →
  (∃ st, _permutation_test X Y U s V co ngroups niter None rotate_method g
           = Raised TypeError st ∧
         greatersum st = np.zeros (length s)) ∧
  (∃ st, _bootstrap_test X Y U s V co ngroups niter None rotate_method dist g
           = Raised TypeError st ∧
         left_sv_sampled st = replicate niter None ∧
         right_sv_sampled st = replicate niter None) ∧
  __init__ X Y U s V co None niter nboot ngroups dist rotate_method g = Err TypeError.
Proof.
  intros Hn. destruct niter as [|n]; [lia|].
  assert (∃ st, _permutation_test X Y U s V co ngroups (S n) None rotate_method g
                  = Raised TypeError st ∧
                greatersum st = np.zeros (length s)) as Hperm.
  { unfold _permutation_test, for_range. cbn [seq for_each].
    unfold permutation_round, permutation_round_s_hat. cbn [perm_rng greatersum].
    destruct (resampled_pair _ _ _ _ _) as [[X_new Y_new] g'].
    cbn [call_preprocess mbind res_bind]. eexists; split; done. }
  split; [done|]. split.
  - unfold _bootstrap_test, for_range. cbn [seq for_each].
    unfold bootstrap_round, bootstrap_round_vectors.
    cbn [boot_rng left_sv_sampled right_sv_sampled].
    destruct (resampled_pair _ _ _ _ _) as [[X_new Y_new] g'].
    cbn [call_preprocess mbind res_bind]. eexists; split; done.
  - destruct Hperm as (st & Hrun & _). unfold __init__. by rewrite Hrun.
Qed.

End permutation_extras.

Section permutation_extras_2.
Context {F : Type} {SF : Scalar F} {CF : Collaborators F}.
Import bootstrap_permutation._ResampleTestTaskPLS.

Lemma for_each_ext {St I : Type} (body body' : I → St → exn * St + St)
    (l : list I) (st : St) :
  (∀ i st1, body i st1 = body' i st1) →
  for_each body l st = for_each body' l st.
Proof.
  intros Hext. revert st. induction l as [|i l IH]; intros st; simpl; [done|].
  rewrite Hext. destruct (body' i st); [done|]. apply IH.
Qed.

(** X5.  In rotation mode 0 the permutation test reads nothing of the
    reference decomposition but [s]: it gives the same outcome for any two
    references [U], [V] and any two group counts. *)
Theorem permutation_mode_0_reads_only_s
    X Y U U' s V V' co ngroups ngroups' niter preprocess g :
  _permutation_test X Y U s V co ngroups niter preprocess 0 g
  = _permutation_test X Y U' s V' co ngroups' niter preprocess 0 g.
Proof.
  unfold _permutation_test, for_range.
  erewrite for_each_ext; [reflexivity|]. intros i st.
  unfold permutation_round, permutation_round_s_hat, permutation_s_hat.
  reflexivity.
Qed.

Lemma iadd_flags_constant (flags : list bool) (k : Z) :
  np.iadd_flags ((λ t : bool, if t then k else 0) <$> flags) flags
  = Ok ((λ t : bool, if t then k + 1 else 0) <$> flags).
Proof.
  unfold np.iadd_flags. rewrite length_fmap, decide_True by auto.
  rewrite stretch_same. f_equal.
  induction flags as [|t flags IH]; csimpl; [done|]. rewrite IH.
  by destruct t.
Qed.

(** When the comparison [s_hat >= s] has the same outcome [flags] in every
    round, [greatersum] counts the rounds where the flag is set and stays 0
    elsewhere. *)
Lemma permutation_test_constant_flags
    X Y U s V co ngroups niter preprocess rotate_method g (flags : list bool) :
  length flags = length s →
  (∀ g', ∃ s_hat,
     (permutation_round_s_hat X Y V co preprocess rotate_method g').1 = Ok s_hat ∧
     np.greater_equal s_hat s = Ok flags) →
  ∃ st,
    _permutation_test X Y U s V co ngroups niter preprocess rotate_method g
      = Returned (np.true_divide_count niter <$>
                    ((λ t : bool, if t then Z.of_nat niter else 0) <$> flags)) st.
Proof.
  intros Hlen Hround. unfold _permutation_test.
  destruct (for_range _ _ _) as [[e st]|st] eqn:Hloop.
  - exfalso. unfold for_range in Hloop.
    edestruct (for_each_total
      (permutation_round X Y s V co preprocess rotate_method)
      (λ st, ∃ k, greatersum st = (λ t : bool, if t then k else 0) <$> flags)
      (seq 0 niter)) as (st' & Hrun & _); [| |by rewrite Hrun in Hloop].
    + intros i st1 [k Hk]. unfold permutation_round.
      destruct (Hround (perm_rng st1)) as (s_hat & Hs & Hge).
      destruct (permutation_round_s_hat _ _ _ _ _ _ _) as [r g']. simpl in Hs.
      subst r. simpl. rewrite Hge. simpl. rewrite Hk, iadd_flags_constant.
      eexists; split; [done|]. by exists (k + 1).
    + exists 0. simpl. unfold np.zeros. rewrite <- Hlen.
      clear. induction flags as [|[] ? IH]; csimpl; by rewrite ?IH.
  - apply (for_range_invariant _
      (λ k st, greatersum st = (λ t : bool, if t then Z.of_nat k else 0) <$> flags))
      in Hloop.
    + rewrite Hloop. eauto.
    + intros i st1 st2 _ Hk. unfold permutation_round.
      destruct (Hround (perm_rng st1)) as (s_hat & Hs & Hge).
      destruct (permutation_round_s_hat _ _ _ _ _ _ _) as [r g']. simpl in Hs.
      subst r. simpl. rewrite Hge. simpl. rewrite Hk, iadd_flags_constant.
      intros [= <-]. simpl. apply list_fmap_ext. intros _ [] _; [lia|done].
    + simpl. unfold np.zeros. rewrite <- Hlen.
      clear. induction flags as [|[] ? IH]; csimpl; by rewrite ?IH.
Qed.

(** X6.  Ties count as exceedances: the comparison is [s_hat >= s].  When
    every round derives exactly the reference values [s], none of them nan
    (so that [x >= x] holds), the ratio is 1 at every entry. *)
Theorem permutation_ratio_of_ties_is_one
    X Y U s V co ngroups niter preprocess rotate_method g :
  (1 ≤ niter)%nat →
  Forall (λ x, fge x x = true) s →
  (∀ g', (permutation_round_s_hat X Y V co preprocess rotate_method g').1 = Ok s) →
  ∃ ratio st,
    _permutation_test X Y U s V co ngroups niter preprocess rotate_method g
      = Returned ratio st ∧
    length ratio = length s ∧
    Forall (λ r, ∃ q, r = Some q ∧ (q == 1)%Q) ratio.
Proof.
  intros Hn Hrefl Hround.
  assert (np.greater_equal s s = Ok (replicate (length s) true)) as Hge.
  { unfold np.greater_equal. rewrite bdim_same, stretch_same. f_equal.
    clear - Hrefl. induction Hrefl as [|x s' Hx _ IH]; simpl; [done|].
    by rewrite Hx, IH. }
  destruct (permutation_test_constant_flags X Y U s V co ngroups niter preprocess
              rotate_method g (replicate (length s) true)) as [st Hrun].
  - by rewrite length_replicate.
  - intros g'. exists s. by rewrite Hround.
  - eexists _, st. split; [exact Hrun|]. split.
    + by rewrite !length_fmap, length_replicate.
    + rewrite !fmap_replicate. apply Forall_replicate.
      unfold np.true_divide_count. rewrite decide_False by lia.
      eexists; split; [done|]. unfold Qeq. simpl.
      assert (Z.pos (Pos.of_nat niter) = Z.of_nat niter) as ->.
      { rewrite <- positive_nat_Z, Nat2Pos.id; lia. }
      lia.
Qed.

(** No round raises when every round derives singular values of the shape
    of [s]. *)
Lemma permutation_test_total
    X Y U s V co ngroups niter preprocess rotate_method g :
  (∀ g', ∃ s_hat,
     (permutation_round_s_hat X Y V co preprocess rotate_method g').1 = Ok s_hat ∧
     length s_hat = length s) →
  ∃ ratio st,
    _permutation_test X Y U s V co ngroups niter preprocess rotate_method g
      = Returned ratio st.
Proof.
  intros Hround. unfold _permutation_test, for_range.
  edestruct (for_each_total
    (permutation_round X Y s V co preprocess rotate_method)
    (λ st, length (greatersum st) = length s) (seq 0 niter)) as (st' & -> & _).
  - intros i st Hst. by apply permutation_round_total.
  - simpl. unfold np.zeros. apply length_replicate.
  - eauto.
Qed.

(** X7.  The class runs the permutation test and then the bootstrap test,
    the second on the generator the first one leaves.  With at least one
    permutation round, and on the inputs on which the rounds of both tests
    succeed: the permutation test returns from the generator [g] in a state
    [st]; the bootstrap test returns from the generator of [st] in a state
    [st']; and [__init__] returns the instance that holds the [dist] it was
    given and the results of exactly these two runs, with the generator of
    [st'].  The ratio has the shape of [s] with entries in [0, 1], the
    standard errors have the shape of [V], and the bootstrap ratios are their
    quotient by [V]. *)
Theorem resample_tests_give_a_complete_instance
    X Y U s V co preprocess nperm nboot ngroups dist rotate_method g (r c : nat) :
  (1 ≤ nperm)%nat →
  np.has_shape r c V →
  (∀ g', ∃ s_hat,
     (permutation_round_s_hat X Y V co preprocess rotate_method g').1 = Ok s_hat ∧
     length s_hat = length s) →
  (∀ g', ∃ U_hat V_hat U_slot V_slot,
     (bootstrap_round_vectors X Y U V co preprocess rotate_method g').1
       = Ok (U_hat, V_hat) ∧
     np.broadcast_to (np.nrows U) (np.ncols U) U_hat = Ok U_slot ∧
     np.broadcast_to (np.nrows V) (np.ncols V) V_hat = Ok V_slot) →
  ∃ ratio st ci se br st',
    _permutation_test X Y U s V co ngroups nperm preprocess rotate_method g
      = Returned ratio st ∧
    _bootstrap_test X Y U s V co ngroups nboot preprocess rotate_method dist
      (perm_rng st) = Returned (ci, se, br) st' ∧
    __init__ X Y U s V co preprocess nperm nboot ngroups dist rotate_method g
      = Ok ({| dist := dist; permute_ratio := ratio; conf_ints := ci;
               std_errs := se; boot_ratios := br |}, boot_rng st') ∧
    length ratio = length s ∧
    Forall (λ x, ∃ q, x = Some q ∧ (0 <= q <= 1)%Q) ratio ∧
    np.has_shape (np.nrows V) (np.ncols V) se ∧
    np.divide se V = Ok br.
Proof.
  intros Hn HV Hperm Hboot.
  destruct (permutation_test_total X Y U s V co ngroups nperm preprocess
              rotate_method g Hperm) as (ratio & st & Hrun).
  destruct (permutation_ratio_when_returned _ _ _ _ _ _ _ _ _ _ _ _ _ Hn Hrun)
    as [Hlen Hrange].
  destruct (bootstrap_test_total X Y U s V co ngroups nboot preprocess rotate_method
              dist (perm_rng st) r c HV Hboot) as (ci & se & br & st' & Hrun').
  destruct (bootstrap_test_when_returned _ _ _ _ _ _ _ _ _ _ _ _ _ _ _ _ _ _ HV Hrun')
    as (_ & Hse & Hdiv & _).
  exists ratio, st, ci, se, br, st'.
  split; [exact Hrun|]. split; [exact Hrun'|].
  split; [unfold __init__; by rewrite Hrun, Hrun'|].
  split; [exact Hlen|]. split; [exact Hrange|]. split; [|exact Hdiv].
  rewrite Hse. apply sem_has_shape.
Qed.

End permutation_extras_2.

(** ** More on the bootstrap test *)

Section bootstrap_extras.
Context {F : Type} {SF : Scalar F} {CF : Collaborators F}.
Import bootstrap_permutation._ResampleTestTaskPLS.

Lemma broadcast_to_rows (r c : nat) (M slot : np.matrix F) :
  np.broadcast_to r c M = Ok slot → length slot = r.
Proof.
  unfold np.broadcast_to. destruct (decide _) as [[Hr _]|]; [|done].
  intros [= <-]. rewrite length_fmap. by apply stretch_length.
Qed.

(** A list of slots whose entries are all written. *)
Lemma written_all (P : np.matrix F → Prop) (slots : list (option (np.matrix F))) :
  (∀ i, (i < length slots)%nat → ∃ M, slots !! i = Some (Some M) ∧ P M) →
  slots = Some <$> written slots ∧
  length (written slots) = length slots ∧
  Forall P (written slots).
Proof.
  unfold written. induction slots as [|x slots IH]; intros Hall; [done|].
  destruct (Hall 0%nat) as (M & HM & HP); [simpl; lia|]. simpl in HM.
  injection HM as ->. csimpl.
  destruct IH as (Heq & Hlen & HPs).
  { intros i Hi. apply (Hall (S i)). simpl. lia. }
  repeat split; [by rewrite <- Heq|by rewrite Hlen|by constructor].
Qed.

(** What [k] completed rounds leave in the two sampled arrays: [niter] slots
    each, of which the first [k] are written, the left ones with as many
    rows as [U] and the right ones with as many rows as [V]. *)
Lemma bootstrap_slots_after_rounds
    X Y U s V co ngroups niter preprocess rotate_method dist g ci se br st :
  _bootstrap_test X Y U s V co ngroups niter preprocess rotate_method dist g
    = Returned (ci, se, br) st →
  length (left_sv_sampled st) = niter ∧
  length (right_sv_sampled st) = niter ∧
  (∀ i, (i < niter)%nat →
     ∃ M, left_sv_sampled st !! i = Some (Some M) ∧ length M = np.nrows U) ∧
  (∀ i, (i < niter)%nat →
     ∃ M, right_sv_sampled st !! i = Some (Some M) ∧ length M = np.nrows V).
Proof.
  unfold _bootstrap_test.
  destruct (for_range _ _ _) as [[e st1]|st1] eqn:Hloop; [done|].
  destruct (np.divide _ V); [|done]. intros [= _ _ _ <-].
  apply (for_range_invariant _ (λ k st,
    length (left_sv_sampled st) = niter ∧
    length (right_sv_sampled st) = niter ∧
    (∀ i, (i < k)%nat →
       ∃ M, left_sv_sampled st !! i = Some (Some M) ∧ length M = np.nrows U) ∧
    (∀ i, (i < k)%nat →
       ∃ M, right_sv_sampled st !! i = Some (Some M) ∧ length M = np.nrows V)))
    in Hloop; [done| |].
  - intros k st2 st3 Hk (Hl & Hr & HL & HR). unfold bootstrap_round.
    destruct (bootstrap_round_vectors _ _ _ _ _ _ _ _) as [[[U_hat V_hat]|e] g'];
      [|done].
    destruct (np.broadcast_to _ _ U_hat) as [U_slot|] eqn:HU; [|done].
    destruct (np.broadcast_to _ _ V_hat) as [V_slot|] eqn:HVs; [|done].
    intros [= <-]. simpl. rewrite !length_insert.
    repeat split; [done..| |].
    + intros i Hi. destruct (decide (i = k)) as [->|Hne].
      * exists U_slot. rewrite list_lookup_insert_eq by lia.
        split; [done|]. by eapply broadcast_to_rows.
      * rewrite list_lookup_insert_ne by done. apply HL. lia.
    + intros i Hi. destruct (decide (i = k)) as [->|Hne].
      * exists V_slot. rewrite list_lookup_insert_eq by lia.
        split; [done|]. by eapply broadcast_to_rows.
      * rewrite list_lookup_insert_ne by done. apply HR. lia.
  - simpl. rewrite !length_replicate. repeat split; [done..| |]; intros; lia.
Qed.

Lemma bootstrap_written_after_rounds
    X Y U s V co ngroups niter preprocess rotate_method dist g ci se br st :
  _bootstrap_test X Y U s V co ngroups niter preprocess rotate_method dist g
    = Returned (ci, se, br) st →
  left_sv_sampled st = Some <$> written (left_sv_sampled st) ∧
  right_sv_sampled st = Some <$> written (right_sv_sampled st) ∧
  length (written (left_sv_sampled st)) = niter ∧
  length (written (right_sv_sampled st)) = niter ∧
  Forall (λ M, length M = np.nrows U) (written (left_sv_sampled st)) ∧
  Forall (λ M, length M = np.nrows V) (written (right_sv_sampled st)).
Proof.
  intros Hrun.
  destruct (bootstrap_slots_after_rounds _ _ _ _ _ _ _ _ _ _ _ _ _ _ _ _ Hrun)
    as (Hl & Hr & HL & HR).
  destruct (written_all (λ M, length M = np.nrows U) (left_sv_sampled st))
    as (HeqL & HlenL & HPL); [by rewrite Hl|].
  destruct (written_all (λ M, length M = np.nrows V) (right_sv_sampled st))
    as (HeqR & HlenR & HPR); [by rewrite Hr|].
  repeat split; [done|done|congruence|congruence|done|done].
Qed.

(** X8.  When the bootstrap test returns, every one of the [niter] slots of
    either sampled array has been written, by the round of its index: the
    interval is computed over exactly [niter] left matrices, each with the
    number of rows of [U], and the standard errors over exactly [niter] right
    matrices, each with the number of rows of [V]. *)
Theorem bootstrap_test_fills_every_slot
    X Y U s V co ngroups niter preprocess rotate_method dist g ci se br st :
  _bootstrap_test X Y U s V co ngroups niter preprocess rotate_method dist g
    = Returned (ci, se, br) st →
  left_sv_sampled st = Some <$> written (left_sv_sampled st) ∧
  right_sv_sampled st = Some <$> written (right_sv_sampled st) ∧
  length (written (left_sv_sampled st)) = niter ∧
  length (written (right_sv_sampled st)) = niter ∧
  Forall (λ M, length M = np.nrows U) (written (left_sv_sampled st)) ∧
  Forall (λ M, length M = np.nrows V) (written (right_sv_sampled st)) ∧
  ci = confidence_interval (written (left_sv_sampled st)).
Proof.
  intros Hrun.
  destruct (bootstrap_written_after_rounds _ _ _ _ _ _ _ _ _ _ _ _ _ _ _ _ Hrun)
    as (H1 & H2 & H3 & H4 & H5 & H6).
  repeat split; [done..|].
  unfold _bootstrap_test in Hrun.
  destruct (for_range _ _ _) as [[e st1]|st1]; [done|].
  destruct (np.divide _ V); [|done]. by injection Hrun as <- _ _ <-.
Qed.

(** X9.  In rotation mode 1 the bootstrap test stores the factors of the
    plain decomposition: the Procrustes steps (the product [V.T @ V_hat], its
    decomposition, [s_pro]) change nothing of what is stored, they can only
    raise ValueError when the dimensions of [V.T] and [V_hat] disagree.  And
    the right factor is stored as [np.linalg.svd] returns it, where mode 0
    stores its transpose. *)
Theorem bootstrap_mode_1_stores_the_plain_factors
    (permuted U V U_hat Vh : np.matrix F) (s_hat : np.vec F) :
  linalg_svd permuted = (U_hat, s_hat, Vh) →
  bootstrap_vectors 0 permuted U V = Ok (U_hat, np.transpose Vh) ∧
  bootstrap_vectors 1 permuted U V
  = (if decide (np.ncols (np.transpose V) = np.nrows Vh)
     then Ok (U_hat, Vh) else Err ValueError).
Proof.
  intros Hsvd. unfold bootstrap_vectors. rewrite Hsvd.
  split; [done|]. cbn [decide]. rewrite decide_False by done.
  rewrite decide_True by done. unfold np.matmul.
  destruct (decide _); [|done]. cbn [mbind res_bind].
  clear Hsvd. destruct (linalg_svd _) as [[U_bar s_bar] V_bar]. reflexivity.
Qed.

Lemma sem1_singleton (x : F) :
  fof_Z 0 = fzero →
  (∀ a : F, is_finite (fdiv a fzero) = false) →
  (∀ a : F, is_finite a = false → is_finite (fsqrt a) = false) →
  (∀ a b : F, is_finite a = false → is_finite (fdiv a b) = false) →
  is_finite (scipy_stats.sem1 [x]) = false.
Proof.
  intros H0 Hdiv Hsqrt Hnum. unfold scipy_stats.sem1.
  change (Z.of_nat (length [x]) - 1) with 0. rewrite H0.
  apply Hnum, Hsqrt, Hdiv.
Qed.

(** X10.  A single bootstrap iteration gives no standard error: the sample
    standard deviation divides by [niter - 1 = 0].  In an arithmetic where a
    division by zero is not finite and where the square root and the
    quotient of a value that is not finite are not finite, every standard
    error and every bootstrap ratio returned for [niter = 1] is not finite. *)
Theorem single_bootstrap_iteration_is_not_finite
    X Y U s V co ngroups preprocess rotate_method dist g ci se br st (r c : nat) :
  np.has_shape r c V →
  fof_Z 0 = fzero →
  (∀ a : F, is_finite (fdiv a fzero) = false) →
  (∀ a : F, is_finite a = false → is_finite (fsqrt a) = false) →
  (∀ a b : F, is_finite a = false → is_finite (fdiv a b) = false) →
  _bootstrap_test X Y U s V co ngroups 1 preprocess rotate_method dist g
    = Returned (ci, se, br) st →
  Forall (Forall (λ x, is_finite x = false)) se ∧
  Forall (Forall (λ x, is_finite x = false)) br.
Proof.
  intros HV H0 Hdiv Hsqrt Hnum Hrun.
  destruct (bootstrap_written_after_rounds _ _ _ _ _ _ _ _ _ _ _ _ _ _ _ _ Hrun)
    as (_ & _ & _ & Hlen & _).
  destruct (bootstrap_test_when_returned _ _ _ _ _ _ _ _ _ _ _ _ _ _ _ _ _ _ HV Hrun)
    as (_ & Hse & _ & Hbr).
  destruct (written (right_sv_sampled st)) as [|M [|??]]; simplify_eq/=.
  assert (Forall (Forall (λ x, is_finite x = false))
            (scipy_stats.sem (np.nrows V) (np.ncols V) [M])) as Hfin.
  { unfold scipy_stats.sem. apply Forall_fmap, Forall_forall. intros i _. simpl.
    apply Forall_fmap, Forall_forall. intros j _. simpl.
    by apply sem1_singleton. }
  split; [done|].
  apply Forall_forall. intros row Hrow. apply list_elem_of_lookup in Hrow as [i Hi].
  rewrite lookup_zip_with in Hi.
  destruct (scipy_stats.sem _ _ _ !! i) as [ra|] eqn:Ha; [|done]. simpl in Hi.
  destruct (V !! i) as [rb|]; [|done]. simpl in Hi. simplify_eq.
  pose proof (proj1 (Forall_lookup _ _) Hfin i ra Ha) as Hra.
  apply Forall_forall. intros x Hx. apply list_elem_of_lookup in Hx as [j Hj].
  rewrite lookup_zip_with in Hj.
  destruct (ra !! j) as [a|] eqn:Haj; [|done]. simpl in Hj.
  destruct (rb !! j) as [b|]; [|done]. simpl in Hj. simplify_eq.
  apply Hnum. by eapply (proj1 (Forall_lookup _ _) Hra).
Qed.

End bootstrap_extras.

(** ** More on the default condition order *)

Section cond_order_extras.
Import pls_classes._MeanCenterTaskSingleGroupPLS.

(** The outer loop makes one new list object per group and appends
    [num_conditions] references to it. *)
Lemma _get_cond_order_outer_loop (num_conditions : Z) (gs : list Z)
    (st : list_of_lists) :
  foldl (_get_cond_order_outer num_conditions) st gs
  = {| store := store st ++ ((λ n, claimed.group_labels n num_conditions) <$> gs);
       refs := refs st ++ (seq (length (store st)) (length gs)
                 ≫= λ a, replicate (Z.to_nat num_conditions) a) |}.
Proof.
  revert st. induction gs as [|n gs IH]; intros [h r]; simpl.
  - by rewrite !app_nil_r.
  - rewrite IH. unfold _get_cond_order_outer. simpl.
    erewrite _get_cond_order_inner_loop; [|simpl; apply list_lookup_middle; done].
    simpl. rewrite length_insert, length_app. simpl. f_equal.
    + rewrite insert_app_r_alt by lia. rewrite Nat.sub_diag. simpl.
      by rewrite <- (assoc_L (++)).
    + rewrite <- (assoc_L (++)). f_equal. f_equal.
      * unfold range. by rewrite length_fmap, length_seq.
      * by rewrite Nat.add_1_r.
Qed.

Lemma length_bind_replicate {A B : Type} (k : nat) (f : A → B) (l : list A) :
  length (l ≫= λ x, replicate k (f x)) = (length l * k)%nat.
Proof.
  induction l as [|x l IH]; [done|].
  rewrite bind_cons, length_app, length_replicate, IH. simpl. lia.
Qed.

(** X11.  The list objects that [_get_cond_order] creates are one per group,
    and they hold what the docstring describes: for the group of size [n],
    [n] times each condition.  The list that is returned holds
    [num_conditions] references to each of these objects, next to each
    other: entries of the same group are one list, so a change made through
    one of them shows in all of them. *)
Theorem default_cond_order_shares_one_list_per_group
    (groups_tuple : list Z) (num_conditions : Z) :
  store (_get_cond_order_objects groups_tuple num_conditions)
    = claimed.default_cond_order groups_tuple num_conditions ∧
  refs (_get_cond_order_objects groups_tuple num_conditions)
    = seq 0 (length groups_tuple) ≫= (λ a, replicate (Z.to_nat num_conditions) a) ∧
  length (_get_cond_order groups_tuple num_conditions)
    = (length groups_tuple * Z.to_nat num_conditions)%nat.
Proof.
  unfold _get_cond_order_objects. rewrite _get_cond_order_outer_loop. simpl.
  split; [done|]. split; [done|].
  rewrite _get_cond_order_value. apply length_bind_replicate.
Qed.

(** X12.  For at least one group, the default condition order is the
    documented one, one list per group, exactly when there is one condition;
    with more conditions it has too many entries, and with none (or a
    negative number) it is empty where the documented one has an empty list
    per group. *)
Theorem default_cond_order_is_as_documented_iff_one_condition
    (groups_tuple : list Z) (num_conditions : Z) :
  groups_tuple ≠ [] →
  _get_cond_order groups_tuple num_conditions
    = claimed.default_cond_order groups_tuple num_conditions
  ↔ num_conditions = 1.
Proof.
  intros Hgs. rewrite _get_cond_order_value. split.
  - intros Heq. apply (f_equal length) in Heq.
    rewrite length_bind_replicate in Heq.
    unfold claimed.default_cond_order in Heq. rewrite length_fmap in Heq.
    destruct groups_tuple as [|n gs]; [done|]. simpl in Heq. nia.
  - intros ->. unfold claimed.default_cond_order. clear Hgs.
    induction groups_tuple as [|n gs IH]; [done|].
    rewrite bind_cons, IH. done.
Qed.

Lemma default_cond_order_is_as_documented_example :
  [3; 2] ≠ [] ∧
  (_get_cond_order [3; 2] 1 = claimed.default_cond_order [3; 2] 1 ↔ 1 = 1) ∧
  (_get_cond_order [3; 2] 2 = claimed.default_cond_order [3; 2] 2 ↔ 2 = 1).
Proof.
  split; [done|]. split.
  - apply (default_cond_order_is_as_documented_iff_one_condition [3; 2] 1). done.
  - apply (default_cond_order_is_as_documented_iff_one_condition [3; 2] 2). done.
Defined.

End cond_order_extras.

(** ** More on the driver *)

Section driver_extras.
Context {F : Type} {SF : Scalar F} {CF : Collaborators F}.
Import pls_classes._MeanCenterTaskSingleGroupPLS.

Lemma zip_with_has_shape (op : F → F → F) (m n : nat) (A B : np.matrix F) :
  np.has_shape m n A → np.has_shape m n B →
  np.has_shape m n (zip_with (zip_with op) A B).
Proof.
  intros [HrA HcA] [HrB HcB]. split.
  - rewrite length_zip_with. lia.
  - apply Forall_forall. intros row Hrow.
    apply list_elem_of_lookup in Hrow as [i Hi].
    rewrite lookup_zip_with in Hi.
    destruct (A !! i) as [ra|] eqn:Ha; [|done]. simpl in Hi.
    destruct (B !! i) as [rb|] eqn:Hb; [|done]. simpl in Hi. simplify_eq.
    rewrite length_zip_with.
    rewrite (proj1 (Forall_lookup _ _) HcA i ra Ha).
    rewrite (proj1 (Forall_lookup _ _) HcB i rb Hb). lia.
Qed.

Lemma div_scalar_has_shape (m n : nat) (A : np.matrix F) (x : F) :
  np.has_shape m n A → np.has_shape m n (np.div_scalar A x).
Proof.
  intros [Hr Hc]. unfold np.div_scalar. split; [by rewrite length_fmap|].
  apply Forall_fmap. eapply Forall_impl; [exact Hc|]. simpl. intros row Hrow.
  by rewrite length_fmap.
Qed.

(** The product [np.dot(np.ones((m, 1)), mean.reshape((1, n)))] of
    [_mean_center] exists and has the shape of [X], in any arithmetic. *)
Lemma mean_center_prod (m n : nat) (X : np.matrix F) :
  np.has_shape m n X → (0 < m)%nat →
  ∃ prod, np.matmul (np.ones (np.nrows X) 1) (np.reshape_row (np.mean_axis0 X))
            = Ok prod ∧ np.has_shape m n prod.
Proof.
  intros HX Hm. pose proof HX as [Hlen _]. unfold np.nrows. rewrite Hlen.
  destruct (matmul_has_shape m 1 n (np.ones m 1) (np.reshape_row (np.mean_axis0 X)))
    as (prod & Hprod & Hshape & _); [| |done|lia|by eauto].
  - unfold np.ones. split; [by rewrite length_replicate|].
    apply Forall_replicate. by rewrite length_replicate.
  - split; [done|]. constructor; [|done].
    unfold np.mean_axis0. rewrite length_fmap, length_seq.
    by apply (has_shape_ncols m n).
Qed.

Lemma mean_center_keeps_shape_aux (m n : nat) (X : np.matrix F) :
  np.has_shape m n X → (0 < m)%nat →
  ∃ X_means X_mc,
    _mean_center X 1 = Ok (X_means, X_mc) ∧
    np.has_shape m n X_means ∧ np.has_shape m n X_mc.
Proof.
  intros HX Hm. unfold _mean_center. rewrite decide_True by done.
  destruct (mean_center_prod m n X HX Hm) as (prod & -> & Hprod).
  cbn [mbind res_bind]. unfold np.subtract.
  rewrite (broadcast2_same_shape fsub m n) by done.
  cbn [mbind res_bind mret res_ret]. eexists _, _. split; [done|].
  pose proof (zip_with_has_shape fsub m n X prod HX Hprod) as Hmeans.
  split; [done|]. by apply div_scalar_has_shape.
Qed.

(** X13.  For a non-empty array [X] of shape (m, n), [_mean_center(X,
    ngroups=1)] returns, in any arithmetic, and both arrays it returns have
    the shape of [X]; with any other number of groups it raises
    NotImplementedError, as [_run_pls] and [_compute_latents] do. *)
Theorem mean_center_keeps_the_shape (m n : nat) (X : np.matrix F) (ngroups : Z) :
  np.has_shape m n X → (0 < m)%nat →
  if decide (ngroups = 1) then
    ∃ X_means X_mc,
      _mean_center X ngroups = Ok (X_means, X_mc) ∧
      np.has_shape m n X_means ∧ np.has_shape m n X_mc
  else
    _mean_center X ngroups = Err NotImplementedError ∧
    (∀ mc, _run_pls mc ngroups = Err NotImplementedError) ∧
    (∀ I EV, _compute_latents I EV ngroups = Err NotImplementedError).
Proof.
  intros HX Hm. destruct (decide (ngroups = 1)) as [->|Hne].
  - by apply mean_center_keeps_shape_aux.
  - unfold _mean_center, _run_pls, _compute_latents.
    repeat split; intros; by destruct (decide (ngroups = 1)).
Qed.

(** X14.  A single-group input of shape (m, n) with m, n ≥ 1, for whose
    centred and rescaled matrix [gsvd] returns right vectors with n rows,
    makes the constructor of the driver run every step up to the resampling
    tests (centring, decomposition, latent variables) and then raise
    AttributeError at the lookup of the class, whatever the condition order
    and the numbers of iterations. *)
Theorem driver_init_runs_up_to_the_resample_tests
    (m n k : nat) (X : np.matrix F) (groups_sizes : list Z) (num_conditions : Z)
    (cond_order : option CondOrder) (num_perm num_boot : Z) (g : rng) :
  np.has_shape m n X → (0 < m)%nat → (0 < n)%nat →
  length groups_sizes = 1%nat →
  (∀ X_means X_mc, _mean_center X 1 = Ok (X_means, X_mc) →
                   np.has_shape n k (gsvd X_mc).2) →
  __init__ X None (Some groups_sizes) num_conditions cond_order num_perm num_boot g
  = Err AttributeError.
Proof.
  intros HX Hm Hn Hgs Hgsvd.
  destruct (mean_center_keeps_shape_aux m n X HX Hm)
    as (X_means & X_mc & Hmc & _ & Hshape).
  destruct (matmul_has_shape m n k X_mc (gsvd X_mc).2) as (lat & Hlat & _);
    [done|by eapply Hgsvd|done|done|].
  eapply driver_init_raises_AttributeError; [done|exact Hmc|].
  unfold _compute_latents. by rewrite decide_True.
Qed.

(** X15.  The constructor of the driver raises on every input, and which
    exception is decided in this order: ValueError when [Y] is given, before
    anything else is looked at; NotImplementedError when [groups_sizes] is
    None or does not have exactly one entry; and for one group ValueError
    (from the arrays) or the AttributeError of the lookup. *)
Theorem driver_init_exception
    (X : np.matrix F) (Y : option (np.matrix F)) (groups_sizes : option (list Z))
    (num_conditions : Z) (cond_order : option CondOrder) (num_perm num_boot : Z)
    (g : rng) :
  ∃ e, __init__ X Y groups_sizes num_conditions cond_order num_perm num_boot g = Err e ∧
       match Y, groups_sizes with
       | Some _, _ => e = ValueError
       | None, Some [_] => e = ValueError ∨ e = AttributeError
       | None, _ => e = NotImplementedError
       end.
Proof.
  unfold __init__. destruct Y as [Y|]; [by eauto|].
  assert (∀ ng, ng ≠ 1 → _mean_center X ng = Err NotImplementedError) as Hother.
  { intros ng Hng. unfold _mean_center. by rewrite decide_False. }
  destruct groups_sizes as [[|n [|n' gs]]|]; unfold _get_groups_info.
  - rewrite Hother by (cbn [length]; lia). by eauto.
  - change (Z.of_nat (length [n])) with 1.
    destruct (_mean_center X 1) as [[X_means X_mc]|e] eqn:Hmc.
    + cbn [mbind res_bind]. unfold _run_pls. rewrite decide_True by done.
      cbn [mbind res_bind mret res_ret]. destruct (gsvd X_mc) as [[U s] V].
      unfold _compute_latents. rewrite decide_True by done.
      unfold np.matmul. destruct (decide _); [|by eauto].
      cbn [mbind res_bind]. rewrite (proj1 getattr_ResampleTestTaskPLS). by eauto.
    + exists e. split; [done|]. left.
      unfold _mean_center in Hmc. rewrite decide_True in Hmc by done.
      unfold np.matmul in Hmc. destruct (decide _); [|by simplify_eq/=].
      cbn [mbind res_bind] in Hmc. unfold np.subtract, np.broadcast2 in Hmc.
      destruct (np.bdim _ _); [|by simplify_eq/=].
      destruct (np.bdim _ _); by simplify_eq/=.
  - rewrite Hother by (cbn [length]; lia). by eauto.
  - rewrite Hother by done. by eauto.
Qed.

Lemma sum_replicate_zero (n : nat) :
  (∀ x : F, fadd fzero x = x) → np.sum (replicate n fzero) = fzero.
Proof.
  intros Hadd. unfold np.sum. induction n as [|n IH]; [done|].
  simpl. by rewrite Hadd.
Qed.

(** [_mean_center(X, ngroups=1)] as a value, in an arithmetic where
    0 + x = x and 1 * x = x. *)
Lemma mean_center_value (m n : nat) (X : np.matrix F) :
  (∀ x : F, fadd fzero x = x) → (∀ x : F, fmul fone x = x) →
  np.has_shape m n X → (0 < m)%nat →
  _mean_center X 1
  = Ok (claimed.centered X, claimed.unit_frobenius (claimed.centered X)).
Proof.
  intros Hadd Hmul HX Hm. unfold _mean_center. rewrite decide_True by done.
  pose proof HX as [Hlen Hrows]. unfold np.nrows. rewrite Hlen.
  rewrite ones_matmul_row by done. cbn [mbind res_bind].
  unfold np.subtract. rewrite (broadcast2_same_shape fsub m n).
  - cbn [mbind res_bind mret res_ret]. rewrite <- Hlen, zip_with_replicate_row.
    unfold np.div_scalar, np.linalg_norm. rewrite concat_power2. done.
  - done.
  - split; [by rewrite length_replicate|]. apply Forall_replicate.
    unfold np.mean_axis0. rewrite length_fmap, length_seq.
    by apply (has_shape_ncols m n).
Qed.

(** X16.  A matrix of one row has nothing left after centring: in an
    arithmetic with 0 + x = x, 1 * x = x, x / 1 = x, 0 * 0 = 0, sqrt 0 = 0
    and 0 / 0 not finite, and for entries with x - x = 0 (the finite ones),
    [_mean_center] returns the zero row as [X_means], its norm is 0, and
    every entry of [X_mc], the matrix the driver decomposes, is the
    quotient 0 / 0, which is not finite. *)
Theorem mean_center_of_one_row_is_not_finite (row : np.vec F) :
  (∀ x : F, fadd fzero x = x) → (∀ x : F, fmul fone x = x) →
  (∀ x : F, fdiv x (fof_Z 1) = x) →
  fmul fzero fzero = fzero → fsqrt fzero = fzero →
  is_finite (fdiv fzero fzero) = false →
  Forall (λ x, fsub x x = fzero) row →
  _mean_center [row] 1
    = Ok ([replicate (length row) fzero],
          [replicate (length row) (fdiv fzero fzero)]) ∧
  Forall (λ x, is_finite x = false) (replicate (length row) (fdiv fzero fzero)).
Proof.
  intros Hadd Hmul Hdiv1 Hmul0 Hsqrt0 Hnan Hrow.
  split; [|by apply Forall_replicate].
  rewrite (mean_center_value 1 (length row)); [|done|done| |lia].
  2:{ split; [done|]. by constructor. }
  assert (np.mean_axis0 [row] = row) as Hmean.
  { unfold np.mean_axis0, np.nrows, np.ncols, np.column. simpl length.
    change (Z.of_nat 1) with 1. etrans; [|apply fmap_nth_seq].
    apply list_fmap_ext. intros _ j _. unfold np.sum. simpl.
    by rewrite Hadd, Hdiv1. }
  assert (zip_with fsub row row = replicate (length row) fzero) as Hzero.
  { clear - Hrow. induction Hrow as [|x l Hx _ IH]; [done|].
    simpl. by rewrite Hx, IH. }
  assert (claimed.centered [row] = [replicate (length row) fzero]) as Hcen.
  { unfold claimed.centered. simpl. by rewrite Hmean, Hzero. }
  rewrite Hcen. do 2 f_equal.
  unfold claimed.unit_frobenius, claimed.frobenius_norm. simpl.
  rewrite app_nil_r, !fmap_replicate, Hmul0, sum_replicate_zero, Hsqrt0 by done.
  done.
Qed.

End driver_extras.

(** ** The factories *)

Section registry_extras.
Context {C R : Type}.

Lemma create_after_register_subclass_aux
    (_subclasses : gmap string C) (_pls_types : gmap string string)
    (construct : C → res R) (key pls_method : string) (subclass : C) :
  registry._create (registry._register_subclass _subclasses key subclass)
    _pls_types construct pls_method
  = if decide (pls_method = key) then construct subclass
    else registry._create _subclasses _pls_types construct pls_method.
Proof.
  unfold registry._create, registry._register_subclass.
  destruct (decide (pls_method = key)) as [->|Hne].
  - by rewrite lookup_insert_eq.
  - by rewrite lookup_insert_ne.
Qed.

(** X17.  What [_create] finds after a registration: under the registered
    key the class that was registered last, whatever was there before and
    whether or not [_pls_types] knows the key; under every other key what it
    found before. *)
Theorem create_after_register_subclass
    (_subclasses : gmap string C) (_pls_types : gmap string string)
    (construct : C → res R) (key pls_method : string) (subclass : C) :
  registry._create (registry._register_subclass _subclasses key subclass)
    _pls_types construct pls_method
  = if decide (pls_method = key) then construct subclass
    else registry._create _subclasses _pls_types construct pls_method.
Proof.
  unfold registry._create, registry._register_subclass.
  destruct (decide (pls_method = key)) as [->|Hne].
  - by rewrite lookup_insert_eq.
  - by rewrite lookup_insert_ne.
Qed.

End registry_extras.

Section factory_extras.
Context {F : Type} {SF : Scalar F} {CF : Collaborators F}.

Lemma _pls_types_keys (pls_method : string) :
  is_Some (registry._pls_types !! pls_method)
  ↔ pls_method ∈ ["mct"; "nrt"; "rb"; "mb"; "nrb"; "nrmb"]%string.
Proof.
  unfold registry._pls_types.
  rewrite <- not_eq_None_Some, <- not_elem_of_list_to_map. csimpl.
  split; [|by intros ? ?].
  intros Hnn. by destruct (decide (pls_method ∈ ["mct"; "nrt"; "rb"; "mb"; "nrb"; "nrmb"]%string)).
Qed.

(** X18.  [ResampleTest._create] by key: "mct" and "rb" call the one class
    with the arguments passed on; the other four keys of [_pls_types] raise
    NotImplementedError; every other string raises ValueError. *)
Theorem ResampleTest_create_by_key
    (pls_method : string) (args : list (bootstrap_permutation.pyval F))
    (kwargs : list (string * bootstrap_permutation.pyval F)) (g : rng) :
  ResampleTest._create pls_method args kwargs g
  = if decide (pls_method ∈ ["mct"; "rb"]%string)
    then bootstrap_permutation.new__ResampleTestTaskPLS args kwargs g
    else if decide (pls_method ∈ ["nrt"; "mb"; "nrb"; "nrmb"]%string)
    then Err NotImplementedError
    else Err ValueError.
Proof.
  unfold ResampleTest._create, ResampleTest._subclasses.
  rewrite !create_after_register_subclass_aux.
  destruct (decide (pls_method ∈ ["mct"; "rb"]%string)) as [Hin|Hout].
  - rewrite !elem_of_cons, elem_of_nil in Hin.
    destruct Hin as [->|[->|[]]]; reflexivity.
  - rewrite !elem_of_cons, elem_of_nil in Hout.
    rewrite !decide_False by tauto.
    unfold registry._create. rewrite lookup_empty.
    destruct (decide (is_Some _)) as [Hin|Hout'].
    + apply _pls_types_keys in Hin. rewrite decide_True; [done|].
      rewrite !elem_of_cons in Hin. rewrite !elem_of_cons. tauto.
    + rewrite _pls_types_keys in Hout'. rewrite decide_False; [done|].
      rewrite !elem_of_cons in Hout'. rewrite !elem_of_cons. tauto.
Qed.

(** X19.  [PLSBase._create] with the arguments of the driver never returns
    an object: under "mct", the only key registered in [pls_classes.py], it
    raises what the constructor of the driver raises; under the other five
    keys of [_pls_types], among them "rb", which the resampling tests do
    register, NotImplementedError; under every other string ValueError. *)
Theorem PLSBase_create_never_returns
    (pls_method : string) (X : np.matrix F) (Y : option (np.matrix F))
    (groups_sizes : option (list Z)) (num_conditions : Z)
    (cond_order : option CondOrder) (num_perm num_boot : Z) (g : rng) :
  let construct := λ _ : PLSBase.subclass,
    pls_classes._MeanCenterTaskSingleGroupPLS.__init__
      X Y groups_sizes num_conditions cond_order num_perm num_boot g in
  ∃ e, PLSBase._create construct pls_method = Err e ∧
       if decide (pls_method = "mct")
       then construct PLSBase.class__MeanCenterTaskSingleGroupPLS = Err e
       else if decide (pls_method ∈ ["nrt"; "rb"; "mb"; "nrb"; "nrmb"]%string)
       then e = NotImplementedError
       else e = ValueError.
Proof.
  intros construct. unfold PLSBase._create, PLSBase._subclasses.
  rewrite create_after_register_subclass_aux.
  destruct (decide (pls_method = "mct")) as [->|Hmct].
  - destruct (driver_init_always_raises
                X Y groups_sizes num_conditions cond_order num_perm num_boot g)
      as [e He].
    exists e. by split.
  - unfold registry._create. rewrite lookup_empty.
    destruct (decide (is_Some _)) as [Hin|Hout].
    + apply _pls_types_keys in Hin. eexists. split; [done|].
      rewrite decide_True; [done|].
      rewrite !elem_of_cons in Hin. rewrite !elem_of_cons. tauto.
    + rewrite _pls_types_keys in Hout. eexists. split; [done|].
      rewrite decide_False; [done|].
      rewrite !elem_of_cons in Hout. rewrite !elem_of_cons. tauto.
Qed.

End factory_extras.

(** ** Calls of the class of the resampling tests *)

Section call_extras.
Context {F : Type} {SF : Scalar F} {CF : Collaborators F}.
Import bootstrap_permutation.

(** The six required arguments given by position and [preprocess] by
    keyword bind to these values; the other five parameters take the
    defaults of the [def]. *)
Lemma bind_required_and_preprocess
    (X : np.matrix F) (Yv : pyval F) (U : np.matrix F) (s : np.vec F)
    (V : np.matrix F) (co : CondOrder) (f : preprocess_fn F) :
  let env : gmap string (pyval F) :=
    list_to_map
      [ ("X", PyMatrix X); ("Y", Yv); ("U", PyMatrix U); ("s", PyVector s);
        ("V", PyMatrix V); ("cond_order", PyCondOrder co);
        ("preprocess", PyFunction f); ("nperm", PyInt 1000);
        ("nboot", PyInt 1000); ("ngroups", PyInt 1);
        ("dist", PyPair (fdiv (fof_Z 5) (fof_Z 100), fdiv (fof_Z 95) (fof_Z 100)));
        ("rotate_method", PyInt 0) ]%string in
  bind_arguments __init___signature
    [PyMatrix X; Yv; PyMatrix U; PyVector s; PyMatrix V; PyCondOrder co]
    [("preprocess", PyFunction f)] = Ok env ∧
  env !! "X" = Some (PyMatrix X) ∧ env !! "Y" = Some Yv ∧
  env !! "U" = Some (PyMatrix U) ∧ env !! "s" = Some (PyVector s) ∧
  env !! "V" = Some (PyMatrix V) ∧ env !! "cond_order" = Some (PyCondOrder co) ∧
  env !! "preprocess" = Some (PyFunction f) ∧
  env !! "nperm" = Some (PyInt 1000) ∧ env !! "nboot" = Some (PyInt 1000) ∧
  env !! "ngroups" = Some (PyInt 1) ∧
  env !! "dist"
    = Some (PyPair (fdiv (fof_Z 5) (fof_Z 100), fdiv (fof_Z 95) (fof_Z 100))) ∧
  env !! "rotate_method" = Some (PyInt 0).
Proof.
  intros env. subst env.
  repeat match goal with |- _ ∧ _ => split end; vm_compute; reflexivity.
Qed.

(** X20.  A call through the factory, under "mct" or "rb", with the six
    required arguments by position and [preprocess] by keyword runs the
    constructor with the defaults of the [def]: 1000 permutations, 1000
    bootstrap samples, one group, [dist = (5/100, 95/100)] and rotation
    mode 0. *)
Theorem create_runs_the_constructor_with_the_defaults
    (pls_method : string)
    (X : np.matrix F) (Y : option (np.matrix F)) (U : np.matrix F) (s : np.vec F)
    (V : np.matrix F) (co : CondOrder) (f : preprocess_fn F) (g : rng) :
  pls_method = "mct"%string ∨ pls_method = "rb"%string →
  ResampleTest._create pls_method
    [PyMatrix X; match Y with Some M => PyMatrix M | None => PyNone end;
     PyMatrix U; PyVector s; PyMatrix V; PyCondOrder co]
    [("preprocess", PyFunction f)] g
  = _ResampleTestTaskPLS.__init__ X Y U s V co (Some f) 1000 1000 1
      (fdiv (fof_Z 5) (fof_Z 100), fdiv (fof_Z 95) (fof_Z 100)) 0 g.
Proof.
  intros Hkey.
  assert (ResampleTest._create pls_method
            [PyMatrix X; match Y with Some M => PyMatrix M | None => PyNone end;
             PyMatrix U; PyVector s; PyMatrix V; PyCondOrder co]
            [("preprocess", PyFunction f)] g
          = new__ResampleTestTaskPLS
              [PyMatrix X; match Y with Some M => PyMatrix M | None => PyNone end;
               PyMatrix U; PyVector s; PyMatrix V; PyCondOrder co]
              [("preprocess", PyFunction f)] g) as ->.
  { unfold ResampleTest._create, ResampleTest._subclasses.
    rewrite !create_after_register_subclass_aux.
    destruct Hkey as [-> | ->]; reflexivity. }
  unfold new__ResampleTestTaskPLS.
  destruct (bind_required_and_preprocess X
              match Y with Some M => PyMatrix M | None => PyNone end U s V co f)
    as (-> & HX & HY & HU & Hs & HV & Hco & Hf & Hnperm & Hnboot & Hng & Hdist & Hrot).
  cbn [mbind res_bind].
  rewrite HX, HY, HU, Hs, HV, Hco, Hf, Hnperm, Hnboot, Hng, Hdist, Hrot.
  change (Z.to_nat 1000) with 1000%nat.
  destruct Y; reflexivity.
Qed.

(** X21.  A call of the class with fewer than six positional arguments and
    no keyword argument, or with more than twelve positional arguments,
    raises TypeError before the constructor runs. *)
Theorem call_with_wrong_number_of_positionals_raises_TypeError
    (args : list (pyval F)) (kwargs : list (string * pyval F)) (g : rng) :
  ((length args < 6)%nat ∧ kwargs = []) ∨ (12 < length args)%nat →
  call class__ResampleTestTaskPLS args kwargs g = Err TypeError ∧
  bind_arguments __init___signature args kwargs = Err TypeError.
Proof.
  intros Hn.
  assert (bind_arguments __init___signature args kwargs = Err TypeError) as Hbind.
  { destruct Hn as [[Hlt ->]|Hgt].
    - destruct args as [|a0 [|a1 [|a2 [|a3 [|a4 [|a5 args]]]]]];
        [by vm_compute..|simpl in Hlt; lia].
    - unfold bind_arguments. rewrite decide_False; [done|].
      change (length __init___signature) with 12%nat. lia. }
  split; [|done]. unfold call, new__ResampleTestTaskPLS. by rewrite Hbind.
Qed.

End call_extras.

(** ** Printing the driver *)

Section printing_extras.
Context {V : Type} (str : V → string) (getitem : V → V → res V).
Import driver_printing.

Lemma getattr_self_missing (__dict__ : list (string * V)) (name : string) :
  name ∉ __dict__.*1 → getattr_self __dict__ name = Err AttributeError.
Proof.
  intros Hname. unfold getattr_self.
  destruct (list_find _ _) as [[i [k v]]|] eqn:Hfind; [|done].
  apply list_find_Some in Hfind as (Hi & Hk & _). simpl in Hk. subst k.
  destruct Hname. apply list_elem_of_fmap. exists (name, v).
  split; [done|]. by eapply list_elem_of_lookup_2.
Qed.

(** X22.  [__repr__] and [__str__] of the driver read [self.pls_types] and
    [self.pls_alg], which no class of the file defines (the class attribute
    is [_pls_types]): on an instance whose dict lacks one of the two names,
    in particular on one that holds only the attributes [__init__] assigns,
    both raise AttributeError and return no text. *)
Theorem driver_repr_raises_AttributeError (__dict__ : list (string * V)) :
  "pls_types"%string ∉ __dict__.*1 ∨ "pls_alg"%string ∉ __dict__.*1 →
  __repr__ str getitem __dict__ = Err AttributeError ∧
  __str__ str getitem __dict__ = Err AttributeError.
Proof.
  intros Hmissing. unfold __repr__, __str__.
  destruct Hmissing as [Hmissing|Hmissing].
  - rewrite (getattr_self_missing _ _ Hmissing). split; reflexivity.
  - rewrite (getattr_self_missing _ "pls_alg" Hmissing).
    unfold getattr_self.
    destruct (list_find _ __dict__) as [[i [k v]]|]; split; reflexivity.
Qed.

End printing_extras.

(** ** The further properties at an input *)

Section further_examples.
Import Rational.
Import bootstrap_permutation._ResampleTestTaskPLS.

Lemma xdiv_1_r (a : xq) : xdiv a (of_Q (inject_Z 1)) = a.
Proof.
  destruct a as [q| | |]; try done. unfold xdiv.
  change (of_Q (inject_Z 1)) with (Fin 1%Qc). change (1 ?= 0)%Qc with Gt.
  f_equal. unfold Qcdiv. change (/ 1)%Qc with 1%Qc. apply Qcmult_1_r.
Qed.

Lemma xsqrt_not_finite (a : xq) : xfinite a = false → xfinite (xsqrt a) = false.
Proof. by destruct a. Qed.

Lemma xdiv_not_finite (a b : xq) : xfinite a = false → xfinite (xdiv a b) = false.
Proof.
  destruct a as [p| | |], b as [q| | |]; simpl; try done.
  - by destruct (q ?= 0)%Qc.
  - by destruct (q ?= 0)%Qc.
Qed.

(** The rounds of the permutation test on the rows (0, 2) and (1, 0), in
    rotation mode 2 against the identity: both orders of the rows have the
    column norms 1 and 2. *)
Lemma example_permutation_rounds (g' : nat) :
  (permutation_round_s_hat (CF := examples) (of_Zs [[0; 2]; [1; 0]]) None
     (of_Zs [[1; 0]; [0; 1]]) [[0; 1]] (Some pass_through) 2 g').1
  = Ok [of_Q 1; of_Q 2].
Proof.
  unfold permutation_round_s_hat, resampled_pair.
  change (resample_without_replacement (Collaborators := examples) g' (of_Zs [[0; 2]; [1; 0]]) [[0; 1]])
    with (take_rows (permutation_indices g' 2) (of_Zs [[0; 2]; [1; 0]]), S g').
  destruct (permutation_indices_2 g') as [-> | ->]; by_evaluation.
Qed.

(** The rounds of the bootstrap test on the rows (3, 4) and (0, 5), in
    rotation mode 2 against the identity. *)
Lemma example_bootstrap_rounds (g' : nat) :
  ∃ U_hat V_hat U_slot V_slot,
    (bootstrap_round_vectors (CF := examples) (of_Zs [[3; 4]; [0; 5]]) None
       (of_Zs [[1; 0]; [0; 1]]) (of_Zs [[1; 0]; [0; 1]]) [[0; 1]]
       (Some pass_through) 2 g').1 = Ok (U_hat, V_hat) ∧
    np.broadcast_to 2 2 U_hat = Ok U_slot ∧
    np.broadcast_to 2 2 V_hat = Ok V_slot.
Proof.
  unfold bootstrap_round_vectors, resampled_pair.
  change (resample_with_replacement (Collaborators := examples) g' (of_Zs [[3; 4]; [0; 5]]) [[0; 1]])
    with (take_rows (bootstrap_indices g' 2) (of_Zs [[3; 4]; [0; 5]]), S g').
  destruct (bootstrap_indices_2 g') as [-> | ->].
  - exists [[of_Q (3 # 5); of_Q 0]; [of_Q (4 # 5); of_Q 1]],
           [[of_Q (3 # 5); of_Q 0]; [of_Q (4 # 5); of_Q 1]],
           [[of_Q (3 # 5); of_Q 0]; [of_Q (4 # 5); of_Q 1]],
           [[of_Q (3 # 5); of_Q 0]; [of_Q (4 # 5); of_Q 1]].
    repeat split; by_evaluation.
  - exists [[of_Q (3 # 5); of_Q (3 # 5)]; [of_Q (4 # 5); of_Q (4 # 5)]],
           [[of_Q (3 # 5); of_Q (3 # 5)]; [of_Q (4 # 5); of_Q (4 # 5)]],
           [[of_Q (3 # 5); of_Q (3 # 5)]; [of_Q (4 # 5); of_Q (4 # 5)]],
           [[of_Q (3 # 5); of_Q (3 # 5)]; [of_Q (4 # 5); of_Q (4 # 5)]].
    repeat split; by_evaluation.
Qed.

(** The permutation rounds on that second matrix: the column norms of both
    orders of its rows. *)
Lemma example_permutation_rounds_2 (g' : nat) :
  ∃ s_hat,
    (permutation_round_s_hat (CF := examples) (of_Zs [[3; 4]; [0; 5]]) None
       (of_Zs [[1; 0]; [0; 1]]) [[0; 1]] (Some pass_through) 2 g').1 = Ok s_hat ∧
    length s_hat = length [of_Q 5; of_Q 5].
Proof.
  exists (np.column_norms (of_Zs [[3; 4]; [0; 5]])). split; [|reflexivity].
  unfold permutation_round_s_hat, resampled_pair.
  change (resample_without_replacement (Collaborators := examples) g' (of_Zs [[3; 4]; [0; 5]]) [[0; 1]])
    with (take_rows (permutation_indices g' 2) (of_Zs [[3; 4]; [0; 5]]), S g').
  destruct (permutation_indices_2 g') as [-> | ->]; by_evaluation.
Qed.

Lemma identity_2_has_shape : np.has_shape 2 2 (of_Zs [[1; 0]; [0; 1]]).
Proof. split; [reflexivity|]. repeat constructor. Qed.

(** X1 at one round on two rows. *)
Lemma permutation_ratio_is_a_count_example :
  ∃ ratio st,
    _permutation_test (CF := examples) (of_Zs [[0; 2]; [1; 0]]) None []
      [of_Q 2; of_Q 1] (of_Zs [[1; 0]; [0; 1]]) [[0; 1]] 1 1 (Some pass_through) 2 0%nat
      = Returned ratio st ∧
    ratio = (λ c, Some (c # Pos.of_nat 1)) <$> greatersum st ∧
    Forall (λ c, 0 ≤ c ≤ Z.of_nat 1) (greatersum st) ∧
    (1%nat = 1%nat → Forall (λ r, r = Some (0 # 1) ∨ r = Some (1 # 1)) ratio).
Proof.
  destruct (permutation_test_total (CF := examples) (of_Zs [[0; 2]; [1; 0]]) None []
              [of_Q 2; of_Q 1] (of_Zs [[1; 0]; [0; 1]]) [[0; 1]] 1 1
              (Some pass_through) 2 0%nat) as (ratio & st & Hrun).
  { intros g'. exists [of_Q 1; of_Q 2]. split; [apply example_permutation_rounds|].
    reflexivity. }
  exists ratio, st. split; [exact Hrun|].
  exact (permutation_ratio_is_a_count_over_niter (CF := examples) _ _ _ _ _ _ _ 1 _ _ _
           ratio st (le_n 1) Hrun).
Defined.

(** X4 at two rounds. *)
Lemma missing_preprocess_example :
  (∃ st, _permutation_test (CF := examples) (of_Zs [[0; 2]; [1; 0]]) None []
           [of_Q 2; of_Q 1] (of_Zs [[1; 0]; [0; 1]]) [[0; 1]] 1 2 None 0 0%nat
           = Raised TypeError st ∧
         greatersum st = np.zeros 2) ∧
  (∃ st, _bootstrap_test (CF := examples) (of_Zs [[0; 2]; [1; 0]]) None []
           [of_Q 2; of_Q 1] (of_Zs [[1; 0]; [0; 1]]) [[0; 1]] 1 2 None 0
           (of_Q (5 # 100), of_Q (95 # 100)) 0%nat
           = Raised TypeError st ∧
         left_sv_sampled st = replicate 2 None ∧
         right_sv_sampled st = replicate 2 None) ∧
  __init__ (CF := examples) (of_Zs [[0; 2]; [1; 0]]) None [] [of_Q 2; of_Q 1]
    (of_Zs [[1; 0]; [0; 1]]) [[0; 1]] None 2 1000 1
    (of_Q (5 # 100), of_Q (95 # 100)) 0 0%nat = Err TypeError.
Proof.
  refine (missing_preprocess_raises_TypeError (CF := examples)
            (of_Zs [[0; 2]; [1; 0]]) None [] [of_Q 2; of_Q 1]
            (of_Zs [[1; 0]; [0; 1]]) [[0; 1]] 1 2 1000 0
            (of_Q (5 # 100), of_Q (95 # 100)) 0%nat _).
  lia.
Defined.

(** X6 at three rounds, with the reference values the column norms 1 and 2
    that every round derives. *)
Lemma permutation_ratio_of_ties_example :
  ∃ ratio st,
    _permutation_test (CF := examples) (of_Zs [[0; 2]; [1; 0]]) None []
      [of_Q 1; of_Q 2] (of_Zs [[1; 0]; [0; 1]]) [[0; 1]] 1 3 (Some pass_through) 2 0%nat
      = Returned ratio st ∧
    length ratio = 2%nat ∧
    Forall (λ r, ∃ q, r = Some q ∧ (q == 1)%Q) ratio.
Proof.
  refine (permutation_ratio_of_ties_is_one (CF := examples)
            (of_Zs [[0; 2]; [1; 0]]) None [] [of_Q 1; of_Q 2]
            (of_Zs [[1; 0]; [0; 1]]) [[0; 1]] 1 3 (Some pass_through) 2 0%nat _ _ _).
  - lia.
  - repeat constructor.
  - exact example_permutation_rounds.
Defined.

(** X7 at two permutation and two bootstrap rounds. *)
Lemma resample_tests_instance_example :
  ∃ ratio st ci se br st',
    _permutation_test (CF := examples) (of_Zs [[3; 4]; [0; 5]]) None
      (of_Zs [[1; 0]; [0; 1]]) [of_Q 5; of_Q 5] (of_Zs [[1; 0]; [0; 1]]) [[0; 1]]
      1 2 (Some pass_through) 2 0%nat
      = Returned ratio st ∧
    _bootstrap_test (CF := examples) (of_Zs [[3; 4]; [0; 5]]) None
      (of_Zs [[1; 0]; [0; 1]]) [of_Q 5; of_Q 5] (of_Zs [[1; 0]; [0; 1]]) [[0; 1]]
      1 2 (Some pass_through) 2 (of_Q (5 # 100), of_Q (95 # 100)) (perm_rng st)
      = Returned (ci, se, br) st' ∧
    __init__ (CF := examples) (of_Zs [[3; 4]; [0; 5]]) None (of_Zs [[1; 0]; [0; 1]])
      [of_Q 5; of_Q 5] (of_Zs [[1; 0]; [0; 1]]) [[0; 1]] (Some pass_through) 2 2 1
      (of_Q (5 # 100), of_Q (95 # 100)) 2 0%nat
      = Ok ({| dist := (of_Q (5 # 100), of_Q (95 # 100)); permute_ratio := ratio;
               conf_ints := ci; std_errs := se; boot_ratios := br |},
            boot_rng st') ∧
    length ratio = 2%nat ∧
    Forall (λ x, ∃ q, x = Some q ∧ (0 <= q <= 1)%Q) ratio ∧
    np.has_shape 2 2 se ∧
    np.divide se (of_Zs [[1; 0]; [0; 1]]) = Ok br.
Proof.
  refine (resample_tests_give_a_complete_instance (CF := examples)
            (of_Zs [[3; 4]; [0; 5]]) None (of_Zs [[1; 0]; [0; 1]])
            [of_Q 5; of_Q 5] (of_Zs [[1; 0]; [0; 1]]) [[0; 1]] (Some pass_through) 2 2 1
            (of_Q (5 # 100), of_Q (95 # 100)) 2 0%nat 2 2 _ _ _ _).
  - lia.
  - exact identity_2_has_shape.
  - exact example_permutation_rounds_2.
  - exact example_bootstrap_rounds.
Defined.

(** X8 at two bootstrap rounds. *)
Lemma bootstrap_test_fills_every_slot_example :
  ∃ ci se br st,
    _bootstrap_test (CF := examples) (of_Zs [[3; 4]; [0; 5]]) None
      (of_Zs [[1; 0]; [0; 1]]) [of_Q 5; of_Q 5] (of_Zs [[1; 0]; [0; 1]]) [[0; 1]]
      1 2 (Some pass_through) 2 (of_Q (5 # 100), of_Q (95 # 100)) 0%nat
    = Returned (ci, se, br) st ∧
    left_sv_sampled st = Some <$> written (left_sv_sampled st) ∧
    right_sv_sampled st = Some <$> written (right_sv_sampled st) ∧
    length (written (left_sv_sampled st)) = 2%nat ∧
    length (written (right_sv_sampled st)) = 2%nat ∧
    Forall (λ M, length M = 2%nat) (written (left_sv_sampled st)) ∧
    Forall (λ M, length M = 2%nat) (written (right_sv_sampled st)) ∧
    ci = confidence_interval (written (left_sv_sampled st)).
Proof.
  destruct (bootstrap_test_total (CF := examples) (of_Zs [[3; 4]; [0; 5]]) None
              (of_Zs [[1; 0]; [0; 1]]) [of_Q 5; of_Q 5] (of_Zs [[1; 0]; [0; 1]])
              [[0; 1]] 1 2 (Some pass_through) 2 (of_Q (5 # 100), of_Q (95 # 100))
              0%nat 2 2 identity_2_has_shape example_bootstrap_rounds)
    as (ci & se & br & st & Hrun).
  exists ci, se, br, st. split; [exact Hrun|].
  exact (bootstrap_test_fills_every_slot (CF := examples) _ _ _ _ _ _ _ _ _ _ _ _
           ci se br st Hrun).
Defined.

(** X9 at the exchange of two scaled rows, whose right factor is the
    exchange matrix: mode 1 stores it as it is. *)
Lemma bootstrap_mode_1_example :
  bootstrap_vectors (CF := examples) 0 (of_Zs [[0; 2]; [1; 0]])
    (of_Zs [[1; 0]; [0; 1]]) (of_Zs [[1; 0]; [0; 1]])
    = Ok (of_Zs [[1; 0]; [0; 1]], np.transpose (of_Zs [[0; 1]; [1; 0]])) ∧
  bootstrap_vectors (CF := examples) 1 (of_Zs [[0; 2]; [1; 0]])
    (of_Zs [[1; 0]; [0; 1]]) (of_Zs [[1; 0]; [0; 1]])
    = Ok (of_Zs [[1; 0]; [0; 1]], of_Zs [[0; 1]; [1; 0]]).
Proof.
  refine (bootstrap_mode_1_stores_the_plain_factors (CF := examples)
            (of_Zs [[0; 2]; [1; 0]]) (of_Zs [[1; 0]; [0; 1]]) (of_Zs [[1; 0]; [0; 1]])
            (of_Zs [[1; 0]; [0; 1]]) (of_Zs [[0; 1]; [1; 0]]) [of_Q 2; of_Q 1] _).
  by_evaluation.
Defined.

(** X10 at one bootstrap round. *)
Lemma single_bootstrap_iteration_example :
  ∃ ci se br st,
    _bootstrap_test (CF := examples) (of_Zs [[3; 4]; [0; 5]]) None
      (of_Zs [[1; 0]; [0; 1]]) [of_Q 5; of_Q 5] (of_Zs [[1; 0]; [0; 1]]) [[0; 1]]
      1 1 (Some pass_through) 2 (of_Q (5 # 100), of_Q (95 # 100)) 0%nat
    = Returned (ci, se, br) st ∧
    Forall (Forall (λ x, xfinite x = false)) se ∧
    Forall (Forall (λ x, xfinite x = false)) br.
Proof.
  destruct (bootstrap_test_total (CF := examples) (of_Zs [[3; 4]; [0; 5]]) None
              (of_Zs [[1; 0]; [0; 1]]) [of_Q 5; of_Q 5] (of_Zs [[1; 0]; [0; 1]])
              [[0; 1]] 1 1 (Some pass_through) 2 (of_Q (5 # 100), of_Q (95 # 100))
              0%nat 2 2 identity_2_has_shape example_bootstrap_rounds)
    as (ci & se & br & st & Hrun).
  exists ci, se, br, st. split; [exact Hrun|].
  exact (single_bootstrap_iteration_is_not_finite (CF := examples) _ _ _ _ _ _ _ _ _ _ _
           ci se br st 2 2 identity_2_has_shape eq_refl xdiv_0_not_finite
           xsqrt_not_finite xdiv_not_finite Hrun).
Defined.

(** X13 at four rows of one variable. *)
Lemma mean_center_keeps_the_shape_example :
  ∃ X_means X_mc,
    pls_classes._MeanCenterTaskSingleGroupPLS._mean_center
      (of_Zs [[2]; [2]; [0]; [0]]) 1 = Ok (X_means, X_mc) ∧
    np.has_shape 4 1 X_means ∧ np.has_shape 4 1 X_mc.
Proof.
  refine (mean_center_keeps_the_shape 4 1 (of_Zs [[2]; [2]; [0]; [0]]) 1 _ _).
  - split; [reflexivity|]. repeat constructor.
  - lia.
Defined.

Lemma example_mean_center :
  pls_classes._MeanCenterTaskSingleGroupPLS._mean_center (of_Zs [[2]; [2]; [0]; [0]]) 1
  = Ok (of_Zs [[1]; [1]; [-1]; [-1]],
        [[of_Q (1 # 2)]; [of_Q (1 # 2)]; [of_Q (-1 # 2)]; [of_Q (-1 # 2)]]).
Proof. by_evaluation. Qed.

(** X14 at four rows of one variable, one group of four. *)
Lemma driver_init_runs_up_to_the_resample_tests_example :
  pls_classes._MeanCenterTaskSingleGroupPLS.__init__ (CF := examples)
    (of_Zs [[2]; [2]; [0]; [0]]) None (Some [4]) 1 None 1000 1000 0%nat
  = Err AttributeError.
Proof.
  refine (driver_init_runs_up_to_the_resample_tests (CF := examples) 4 1 1
            (of_Zs [[2]; [2]; [0]; [0]]) [4] 1 None 1000 1000 0%nat _ _ _ _ _).
  - split; [reflexivity|]. repeat constructor.
  - lia.
  - lia.
  - reflexivity.
  - intros X_means X_mc Hmc. rewrite example_mean_center in Hmc.
    injection Hmc as <- <-.
    assert ((gsvd (Collaborators := examples)
               [[of_Q (1 # 2)]; [of_Q (1 # 2)]; [of_Q (-1 # 2)]; [of_Q (-1 # 2)]]).2
            = of_Zs [[1]]) as -> by by_evaluation.
    split; [reflexivity|]. repeat constructor.
Defined.

(** X16 at the row (1, 2). *)
Lemma mean_center_of_one_row_example :
  pls_classes._MeanCenterTaskSingleGroupPLS._mean_center [[of_Q 1; of_Q 2]] 1
    = Ok ([replicate 2 (Fin 0%Qc)], [replicate 2 (xdiv (Fin 0%Qc) (Fin 0%Qc))]) ∧
  Forall (λ x, xfinite x = false) (replicate 2 (xdiv (Fin 0%Qc) (Fin 0%Qc))).
Proof.
  refine (mean_center_of_one_row_is_not_finite [of_Q 1; of_Q 2] _ _ _ _ _ _ _).
  - exact xadd_0_l.
  - exact xmul_1_l.
  - exact xdiv_1_r.
  - by_evaluation.
  - by_evaluation.
  - reflexivity.
  - repeat constructor; by_evaluation.
Defined.

(** X20 at the key "rb". *)
Lemma create_runs_the_constructor_example :
  ResampleTest._create (CF := examples) "rb"
    [bootstrap_permutation.PyMatrix (of_Zs [[3; 4]; [0; 5]]);
     bootstrap_permutation.PyNone;
     bootstrap_permutation.PyMatrix (of_Zs [[1; 0]; [0; 1]]);
     bootstrap_permutation.PyVector [of_Q 5; of_Q 5];
     bootstrap_permutation.PyMatrix (of_Zs [[1; 0]; [0; 1]]);
     bootstrap_permutation.PyCondOrder [[0; 1]]]
    [("preprocess", bootstrap_permutation.PyFunction pass_through)] 0%nat
  = __init__ (CF := examples) (of_Zs [[3; 4]; [0; 5]]) None (of_Zs [[1; 0]; [0; 1]])
      [of_Q 5; of_Q 5] (of_Zs [[1; 0]; [0; 1]]) [[0; 1]] (Some pass_through)
      1000 1000 1 (xdiv (of_Q 5) (of_Q 100), xdiv (of_Q 95) (of_Q 100)) 0 0%nat.
Proof.
  refine (create_runs_the_constructor_with_the_defaults (CF := examples) "rb"
            (of_Zs [[3; 4]; [0; 5]]) None (of_Zs [[1; 0]; [0; 1]])
            [of_Q 5; of_Q 5] (of_Zs [[1; 0]; [0; 1]]) [[0; 1]] pass_through 0%nat _).
  right. reflexivity.
Defined.

(** X21 at the three positional arguments the driver passes. *)
Lemma call_with_three_positionals_example :
  bootstrap_permutation.call (CF := examples)
    bootstrap_permutation.class__ResampleTestTaskPLS
    (pls_classes._MeanCenterTaskSingleGroupPLS.resample_tests_args
       (of_Zs [[2]; [2]; [0]; [0]]) [of_Q 1] [[0; 0; 0; 0]]) [] 0%nat
    = Err TypeError ∧
  bootstrap_permutation.bind_arguments bootstrap_permutation.__init___signature
    (pls_classes._MeanCenterTaskSingleGroupPLS.resample_tests_args
       (of_Zs [[2]; [2]; [0]; [0]]) [of_Q 1] [[0; 0; 0; 0]]) []
    = Err TypeError.
Proof.
  refine (call_with_wrong_number_of_positionals_raises_TypeError (CF := examples)
            (pls_classes._MeanCenterTaskSingleGroupPLS.resample_tests_args
               (of_Zs [[2]; [2]; [0]; [0]]) [of_Q 1] [[0; 0; 0; 0]]) [] 0%nat _).
  left. split; [simpl; lia|reflexivity].
Defined.

(** X22 at an instance dict that holds the attributes of [__init__], each
    with an empty text as value. *)
Lemma driver_repr_example :
  let __dict__ := (λ name : string, (name, EmptyString))
                    <$> driver_printing.__init___attributes in
  driver_printing.__repr__ id (λ _ _, Err ValueError) __dict__ = Err AttributeError ∧
  driver_printing.__str__ id (λ _ _, Err ValueError) __dict__ = Err AttributeError.
Proof.
  refine (driver_repr_raises_AttributeError id (λ _ _, Err ValueError)
            ((λ name : string, (name, EmptyString))
               <$> driver_printing.__init___attributes) _).
  left. by_evaluation.
Defined.

End further_examples.
